(** * PollReader: a shallow embedding of [PollReader.py] and its properties

    The Python class [PollReader] reads a small CSV file of polling data
    into six parallel columns and answers three queries about them.  This
    file embeds the class in Rocq and proves (or refutes) the properties
    its specification states.

    Layout:
    - [Py]: the Python built-ins the class relies on ([str.strip],
      [str.split], [int], [float], [max], [sum], slicing, [format]);
    - [Exec]: the state-and-exception monad the methods run in;
    - the class itself, method by method, under the source's names;
    - the specification-side definitions;
    - the theorems. *)

From Stdlib Require Import String Ascii ZArith NArith List Bool Lia.
From Stdlib Require Import SpecFloat DecimalString.
Import ListNotations.

Local Open Scope string_scope.
Local Open Scope Z_scope.

(** ** Python exceptions

    Only the exceptions the class can raise are listed.  A [ValueError]
    carries what CPython puts in its message: the offending text for
    [int] and [float], the number of values for a failed unpacking.
    None of them carries a line number. *)
Inductive value_error : Type :=
| InvalidIntLiteral (text : string)     (* invalid literal for int() with base 10 *)
| IntDigitLimit                         (* exceeds the limit (4300 digits) *)
| InvalidFloatLiteral (text : string)   (* could not convert string to float *)
| NotEnoughValues (expected got : nat)  (* not enough values to unpack *)
| TooManyValues (expected : nat)        (* too many values to unpack *)
| EmptyMax.                             (* max() iterable argument is empty *)

Inductive exn : Type :=
| IndexError                            (* list index out of range *)
| ValueError (why : value_error)
| ZeroDivisionError.

Inductive result (A : Type) : Type :=
| Ok (a : A)
| Raise (e : exn).
Arguments Ok {A} a.
Arguments Raise {A} e.

Definition is_ok {A} (r : result A) : bool :=
  match r with Ok _ => true | Raise _ => false end.

Definition rbind {A B} (r : result A) (k : A -> result B) : result B :=
  match r with
  | Ok a => k a
  | Raise e => Raise e
  end.

Declare Scope result_scope.
Delimit Scope result_scope with result.
Notation "x <- c ;; k" := (rbind c (fun x => k))
  (at level 61, c at next level, right associativity) : result_scope.
Notation "' p <- c ;; k" := (rbind c (fun x => let 'p := x in k))
  (at level 61, p pattern, c at next level, right associativity) : result_scope.

(** ** Python built-ins *)
Module Py.

(** *** Text

    A [str] is modelled as a [string] whose characters are the code
    points 0..255. *)

(** [str.isspace] on one character: the white space of that range. *)
Definition isspace (c : ascii) : bool :=
  let n := N_of_ascii c in
  (((9 <=? n) && (n <=? 13)) || ((28 <=? n) && (n <=? 32))
   || (n =? 133) || (n =? 160))%N.

Definition isdigit (c : ascii) : bool :=
  let n := N_of_ascii c in ((48 <=? n) && (n <=? 57))%N.

Definition digit_val (c : ascii) : Z := Z.of_N (N_of_ascii c) - 48.

Fixpoint lstrip_by (sp : ascii -> bool) (s : string) : string :=
  match s with
  | EmptyString => EmptyString
  | String c r => if sp c then lstrip_by sp r else s
  end.

Fixpoint rstrip_by (sp : ascii -> bool) (s : string) : string :=
  match s with
  | EmptyString => EmptyString
  | String c r =>
      match rstrip_by sp r with
      | EmptyString => if sp c then EmptyString else String c EmptyString
      | r' => String c r'
      end
  end.

Definition strip_by (sp : ascii -> bool) (s : string) : string :=
  rstrip_by sp (lstrip_by sp s).

(** [s.strip()] *)
Definition strip (s : string) : string := strip_by isspace s.

(** [s.split(sep)] for a one-character separator: every occurrence
    cuts, empty pieces are kept, and the result is never empty. *)
Fixpoint split (sep : ascii) (s : string) : list string :=
  match s with
  | EmptyString => [EmptyString]
  | String c r =>
      if Ascii.eqb c sep then EmptyString :: split sep r
      else match split sep r with
           | p :: ps => String c p :: ps
           | [] => [String c EmptyString]
           end
  end.

(** [s.split()]: the maximal runs of characters that are not white
    space; no piece is empty. *)
Fixpoint split_ws (s : string) : list string :=
  match s with
  | EmptyString => []
  | String c r =>
      if isspace c then split_ws r
      else match r with
           | EmptyString => [String c EmptyString]
           | String c' _ =>
               if isspace c' then String c EmptyString :: split_ws r
               else match split_ws r with
                    | w :: ws => String c w :: ws
                    | [] => [String c EmptyString]
                    end
           end
  end.

(** [l[i]] for a non-negative literal index. *)
Definition index {A} (l : list A) (i : nat) : result A :=
  match nth_error l i with
  | Some x => Ok x
  | None => Raise IndexError
  end.

(** [a, b = l] *)
Definition unpack2 {A} (l : list A) : result (A * A) :=
  match l with
  | [a; b] => Ok (a, b)
  | [] => Raise (ValueError (NotEnoughValues 2 0))
  | [_] => Raise (ValueError (NotEnoughValues 2 1))
  | _ => Raise (ValueError (TooManyValues 2))
  end.

(** *** [int(text)]

    White space around the number is skipped, a sign may follow, then
    decimal digits in which single underscores may separate digits.
    The white space [int] and [float] skip is not quite that of
    [str.strip]: the separators 28 to 31 are not part of it.  CPython
    reads the digits first, then refuses more than 4300 of them, and
    only then looks at what follows them. *)
Definition isspace_number (c : ascii) : bool :=
  let n := N_of_ascii c in
  (((9 <=? n) && (n <=? 13)) || (n =? 32) || (n =? 133) || (n =? 160))%N.

(** The digits at the head of [s]: their value, their number, and what
    follows them; nothing when there is no digit or an underscore is
    misplaced. *)
Fixpoint int_digits (s : string) (after_digit : bool) (acc : Z) (n : nat)
  : option (Z * nat * string) :=
  match s with
  | EmptyString => if after_digit then Some (acc, n, s) else None
  | String c r =>
      if isdigit c then int_digits r true (10 * acc + digit_val c) (S n)
      else if Ascii.eqb c "_" then
        if after_digit then int_digits r false acc n else None
      else if after_digit then Some (acc, n, s) else None
  end.

Definition int_max_str_digits : nat := 4300.

Definition int (text : string) : result Z :=
  let t := strip_by isspace_number text in
  let '(neg, body) :=
    match t with
    | String "+" r => (false, r)
    | String "-" r => (true, r)
    | _ => (false, t)
    end in
  match int_digits body false 0 0 with
  | None => Raise (ValueError (InvalidIntLiteral text))
  | Some (v, n, rest) =>
      if (int_max_str_digits <? n)%nat then Raise (ValueError IntDigitLimit)
      else match rest with
           | EmptyString => Ok (if neg then - v else v)
           | String _ _ => Raise (ValueError (InvalidIntLiteral text))
           end
  end.

(** *** [float]

    A Python [float] is an IEEE-754 binary64 number.  It is modelled by
    [spec_float] with 53 bits of precision and the operations of
    [SpecFloat], which round to nearest, ties to even. *)
Definition float : Type := spec_float.
Definition prec : Z := 53.
Definition emax : Z := 1024.

Definition fadd : float -> float -> float := SFadd prec emax.
Definition fsub : float -> float -> float := SFsub prec emax.
Definition fmul : float -> float -> float := SFmul prec emax.
Definition fdiv : float -> float -> float := SFdiv prec emax.
Definition fabs : float -> float := SFabs.
Definition flt : float -> float -> bool := SFltb.
Definition fle : float -> float -> bool := SFleb.
(** [a > b] *)
Definition fgt (a b : float) : bool := flt b a.

(** [float(n)] for an [int]: the nearest float.  (An [int] beyond the
    range of floats raises [OverflowError] in Python; the only ints
    converted here are the literal 100 and list lengths.) *)
Definition float_of_Z (n : Z) : float := binary_normalize prec emax n 0 false.

Definition zero : float := S754_zero false.

Definition is_finite (x : float) : bool :=
  match x with
  | S754_zero _ | S754_finite _ _ _ => true
  | S754_infinity _ | S754_nan => false
  end.

Definition is_nan (x : float) : bool :=
  match x with S754_nan => true | _ => false end.

(** [x / n] for a float [x] and an [int] [n]: [n] is converted to a
    float, which is zero exactly when [n] is, and a zero divisor raises. *)
Definition truediv_int (x : float) (n : Z) : result float :=
  if n =? 0 then Raise ZeroDivisionError else Ok (fdiv x (float_of_Z n)).

(** *** [float(text)]

    White space is skipped as for [int]; then comes an optional sign followed by
    either a decimal number (digits, optional point, digits, optional
    exponent; at least one digit before the exponent) or one of [inf],
    [infinity], [nan] in any case.  Single underscores may separate
    digits.  The decimal value is rounded correctly to binary64; a value
    out of range becomes an infinity or a zero, not an error. *)
Fixpoint span_digits (s : string) : list Z * string :=
  match s with
  | EmptyString => ([], EmptyString)
  | String c r =>
      if isdigit c then
        let '(ds, rest) := span_digits r in (digit_val c :: ds, rest)
      else ([], s)
  end.

Definition digits_value (ds : list Z) : Z :=
  fold_left (fun a d => 10 * a + d) ds 0.

Fixpoint drop_underscores (s : string) (prev : ascii) : option string :=
  match s with
  | EmptyString => if Ascii.eqb prev "_" then None else Some EmptyString
  | String c r =>
      if Ascii.eqb c "_" then
        if isdigit prev then drop_underscores r c else None
      else if Ascii.eqb prev "_" && negb (isdigit c) then None
      else option_map (String c) (drop_underscores r c)
  end.

Definition take_sign (s : string) : bool * string :=
  match s with
  | String "+" r => (false, r)
  | String "-" r => (true, r)
  | _ => (false, s)
  end.

Definition exponent (s : string) : option Z :=
  match s with
  | EmptyString => Some 0
  | String c r =>
      if Ascii.eqb c "e" || Ascii.eqb c "E" then
        let '(neg, r') := take_sign r in
        match span_digits r' with
        | ((_ :: _) as ds, EmptyString) =>
            Some (if neg then - digits_value ds else digits_value ds)
        | _ => None
        end
      else None
  end.

(** A decimal number as a pair [(d, e)] that stands for [d * 10^e]. *)
Definition decimal (s : string) : option (Z * Z) :=
  let '(ip, r1) := span_digits s in
  let '(fp, r2) :=
    match r1 with
    | String "." r => span_digits r
    | _ => ([], r1)
    end in
  match (ip ++ fp)%list with
  | [] => None
  | ds =>
      match exponent r2 with
      | Some e => Some (digits_value ds, e - Z.of_nat (List.length fp))
      | None => None
      end
  end.

(** The binary64 number nearest to [(-1)^neg * d * 10^e]. *)
Definition float_of_decimal (neg : bool) (d e : Z) : float :=
  match d with
  | Zpos p =>
      if 0 <=? e then binary_round prec emax neg (p * Z.to_pos (10 ^ e)) 0
      else SFdiv prec emax (S754_finite neg p 0)
                           (S754_finite false (Z.to_pos (10 ^ (- e))) 0)
  | _ => S754_zero neg
  end.

Definition lower (c : ascii) : ascii :=
  let n := N_of_ascii c in
  if ((65 <=? n) && (n <=? 90))%N then ascii_of_N (n + 32) else c.

Fixpoint lower_str (s : string) : string :=
  match s with
  | EmptyString => EmptyString
  | String c r => String (lower c) (lower_str r)
  end.

Definition inf_or_nan (neg : bool) (s : string) : option float :=
  let t := lower_str s in
  if (t =? "inf")%string || (t =? "infinity")%string then Some (S754_infinity neg)
  else if (t =? "nan")%string then Some S754_nan
  else None.

Definition parse_float (text : string) : option float :=
  match drop_underscores (strip_by isspace_number text) "000" with
  | None => None
  | Some t =>
      let '(neg, body) := take_sign t in
      match decimal body with
      | Some (d, e) => Some (float_of_decimal neg d e)
      | None => inf_or_nan neg body
      end
  end.

Definition float_of_str (text : string) : result float :=
  match parse_float text with
  | Some x => Ok x
  | None => Raise (ValueError (InvalidFloatLiteral text))
  end.

(** *** [format(x, ".1f")]

    One digit after the point, the exact binary value rounded to the
    nearest tenth, ties to even. *)
Definition round_half_even (n d : Z) : Z :=
  let '(q, r) := Z.div_eucl n d in
  match 2 * r ?= d with
  | Lt => q
  | Gt => q + 1
  | Eq => if Z.even q then q else q + 1
  end.

(** The integer nearest to [m * 2^e * 10]. *)
Definition tenths (m : positive) (e : Z) : Z :=
  if 0 <=? e then Zpos m * 2 ^ e * 10
  else round_half_even (Zpos m * 10) (2 ^ (- e)).

Definition str_of_nat_Z (z : Z) : string :=
  NilZero.string_of_uint (N.to_uint (Z.to_N z)).

Definition sign_str (neg : bool) : string := if neg then "-" else "".

Definition format_1f (x : float) : string :=
  match x with
  | S754_nan => "nan"
  | S754_infinity s => sign_str s ++ "inf"
  | S754_zero s => sign_str s ++ "0.0"
  | S754_finite s m e =>
      let t := tenths m e in
      sign_str s ++ str_of_nat_Z (t / 10) ++ "." ++ str_of_nat_Z (t mod 10)
  end.

(** *** [max(l)] on a list of floats

    The first element is the candidate; a later element replaces it
    when it compares greater. *)
Fixpoint max_from (best : float) (l : list float) : float :=
  match l with
  | [] => best
  | x :: r => max_from (if fgt x best then x else best) r
  end.

Definition max (l : list float) : result float :=
  match l with
  | [] => Raise (ValueError EmptyMax)
  | x :: r => Ok (max_from x r)
  end.

(** *** [sum(l)] on a list of floats

    CPython up to 3.11 adds from left to right, starting from the
    integer 0; from 3.12 on it carries a compensation term (Neumaier)
    that is added at the end.  Both are given; the class is
    parametrised by the one in use.  ([sum] of the empty list is the
    integer 0, which the class never asks for.) *)
Definition sum_left (l : list float) : float :=
  fold_left fadd l (float_of_Z 0).

Definition cs_add (acc : float * float) (x : float) : float * float :=
  let '(total, c) := acc in
  let t := fadd total x in
  if fle (fabs x) (fabs total) then (t, fadd c (fadd (fsub total t) x))
  else (t, fadd c (fadd (fsub x t) total)).

Definition sum_compensated (l : list float) : float :=
  match l with
  | [] => float_of_Z 0
  | x :: r =>
      let '(total, c) := fold_left cs_add r (fadd (float_of_Z 0) x, zero) in
      match c with
      | S754_finite _ _ _ => fadd total c
      | _ => total
      end
  end.

(** *** Slicing [l[start:stop]] *)
Definition clamp_index (len : Z) (i : Z) : Z :=
  if i <? 0 then Z.max (i + len) 0 else Z.min i len.

Definition slice {A} (l : list A) (start stop : option Z) : list A :=
  let len := Z.of_nat (List.length l) in
  let lo := match start with Some i => clamp_index len i | None => 0 end in
  let hi := match stop with Some i => clamp_index len i | None => len end in
  firstn (Z.to_nat (hi - lo)) (skipn (Z.to_nat lo) l).

End Py.

(** ** The state of a [PollReader] object

    [data_dict] has six fixed keys, each bound to a list; no key is ever
    added or removed, so the dictionary is a record of six columns.
    [raw_data] is what [readlines] returned in the constructor. *)
Record columns : Type := {
  month : list string;           (* 'month' *)
  date : list Z;                 (* 'date' *)
  sample : list Z;               (* 'sample' *)
  sample_type : list string;     (* 'sample type' *)
  Harris_result : list Py.float; (* 'Harris result' *)
  Trump_result : list Py.float   (* 'Trump result' *)
}.

Record PollReader : Type := {
  raw_data : list string;
  data_dict : columns
}.

Definition empty_columns : columns :=
  {| month := []; date := []; sample := []; sample_type := [];
     Harris_result := []; Trump_result := [] |}.

(** [__init__], after the file has been read: [lines] is the result of
    [readlines()]. *)
Definition init (lines : list string) : PollReader :=
  {| raw_data := lines; data_dict := empty_columns |}.

(** ** Execution of a method: state and exceptions

    A method takes the object's state and gives back the state it
    leaves behind together with its return value or the exception it
    raised.  The state reached when an exception is raised is kept:
    Python does not undo what a method did before it failed. *)
Module Exec.

Definition M (A : Type) : Type := PollReader -> PollReader * result A.

Definition ret {A} (a : A) : M A := fun s => (s, Ok a).

Definition bind {A B} (m : M A) (k : A -> M B) : M B :=
  fun s =>
    match m s with
    | (s', Ok a) => k a s'
    | (s', Raise e) => (s', Raise e)
    end.

(** A computation that does not touch the object. *)
Definition lift {A} (r : result A) : M A := fun s => (s, r).

(** Reading an attribute. *)
Definition gets {A} (f : PollReader -> A) : M A := fun s => (s, Ok (f s)).

(** Updating the columns in place. *)
Definition modify (f : columns -> columns) : M unit :=
  fun s => ({| raw_data := raw_data s; data_dict := f (data_dict s) |}, Ok tt).

(** [for x in l: body(x)] *)
Fixpoint for_each {A} (body : A -> M unit) (l : list A) : M unit :=
  match l with
  | [] => ret tt
  | x :: r => bind (body x) (fun _ => for_each body r)
  end.

(** A computation that leaves the object as it found it, whatever it
    returns or raises. *)
Definition read_only {A} (m : M A) : Prop := forall s, fst (m s) = s.

End Exec.

Declare Scope exec_scope.
Delimit Scope exec_scope with exec.
Notation "x <- c ;; k" := (Exec.bind c (fun x => k))
  (at level 61, c at next level, right associativity) : exec_scope.
Notation "' p <- c ;; k" := (Exec.bind c (fun x => let 'p := x in k))
  (at level 61, p pattern, c at next level, right associativity) : exec_scope.
Notation "c ;;; k" := (Exec.bind c (fun _ => k))
  (at level 61, right associativity) : exec_scope.

(** ** [build_data_dict] *)

(** The values one line contributes to the six columns. *)
Record row : Type := {
  row_month : string;
  row_date : Z;
  row_sample : Z;
  row_sample_type : string;
  row_harris : Py.float;
  row_trump : Py.float
}.

(** Lines 60 to 70: the body of the loop up to the appends.  It only
    reads the line. *)
Definition parse_line (i : string) : result row :=
  (let parts := Py.split "," (Py.strip i) in
   month <- Py.index parts 0 ;;
   p1 <- Py.index parts 1 ;;
   date <- Py.int p1 ;;
   p2 <- Py.index parts 2 ;;
   let sample_with_type := Py.strip p2 in
   '(sample_num_str, sample_type) <- Py.unpack2 (Py.split_ws sample_with_type) ;;
   sample <- Py.int sample_num_str ;;
   p3 <- Py.index parts 3 ;;
   harris <- Py.float_of_str p3 ;;
   p4 <- Py.index parts 4 ;;
   trump <- Py.float_of_str p4 ;;
   Ok {| row_month := month; row_date := date; row_sample := sample;
         row_sample_type := sample_type;
         row_harris := harris; row_trump := trump |})%result.

(** Lines 73 to 78: one [append] per column. *)
Definition append_month (x : string) : Exec.M unit :=
  Exec.modify (fun d =>
    {| month := month d ++ [x]; date := date d; sample := sample d;
       sample_type := sample_type d;
       Harris_result := Harris_result d; Trump_result := Trump_result d |}).

Definition append_date (x : Z) : Exec.M unit :=
  Exec.modify (fun d =>
    {| month := month d; date := date d ++ [x]; sample := sample d;
       sample_type := sample_type d;
       Harris_result := Harris_result d; Trump_result := Trump_result d |}).

Definition append_sample (x : Z) : Exec.M unit :=
  Exec.modify (fun d =>
    {| month := month d; date := date d; sample := sample d ++ [x];
       sample_type := sample_type d;
       Harris_result := Harris_result d; Trump_result := Trump_result d |}).

Definition append_sample_type (x : string) : Exec.M unit :=
  Exec.modify (fun d =>
    {| month := month d; date := date d; sample := sample d;
       sample_type := sample_type d ++ [x];
       Harris_result := Harris_result d; Trump_result := Trump_result d |}).

Definition append_Harris_result (x : Py.float) : Exec.M unit :=
  Exec.modify (fun d =>
    {| month := month d; date := date d; sample := sample d;
       sample_type := sample_type d;
       Harris_result := Harris_result d ++ [x]; Trump_result := Trump_result d |}).

Definition append_Trump_result (x : Py.float) : Exec.M unit :=
  Exec.modify (fun d =>
    {| month := month d; date := date d; sample := sample d;
       sample_type := sample_type d;
       Harris_result := Harris_result d; Trump_result := Trump_result d ++ [x] |}).

Definition loop_body (i : string) : Exec.M unit :=
  (r <- Exec.lift (parse_line i) ;;
   append_month (row_month r) ;;;
   append_date (row_date r) ;;;
   append_sample (row_sample r) ;;;
   append_sample_type (row_sample_type r) ;;;
   append_Harris_result (row_harris r) ;;;
   append_Trump_result (row_trump r))%exec.

Definition build_data_dict : Exec.M unit :=
  (lines <- Exec.gets raw_data ;;
   Exec.for_each loop_body (Py.slice lines (Some 1) None))%exec.

(** ** The queries

    [sum] is the built-in in use ([Py.sum_left] or [Py.sum_compensated]). *)

(** The literal [1e-12]. *)
Definition epsilon : Py.float := S754_finite false 4951760157141521 (-92).

(** The literal [100] as the float it is multiplied as. *)
Definition hundred : Py.float := Py.float_of_Z 100.

(** [f"{x*100:.1f}%"] *)
Definition percent_1f (x : Py.float) : string :=
  Py.format_1f (Py.fmul x hundred) ++ "%".

Definition highest_polling_candidate : Exec.M string :=
  (hs <- Exec.gets (fun s => Harris_result (data_dict s)) ;;
   max_h <- Exec.lift (Py.max hs) ;;
   ts <- Exec.gets (fun s => Trump_result (data_dict s)) ;;
   max_t <- Exec.lift (Py.max ts) ;;
   if Py.flt (Py.fabs (Py.fsub max_h max_t)) epsilon then
     Exec.ret ("EVEN " ++ percent_1f max_h)
   else if Py.fgt max_h max_t then
     Exec.ret ("Harris " ++ percent_1f max_h)
   else
     Exec.ret ("Trump " ++ percent_1f max_t))%exec.

Section Queries.

Variable sum : list Py.float -> Py.float.

(** [sum(vals) / len(vals) if vals else 0.0] *)
Definition average_or_zero (vals : list Py.float) : Exec.M Py.float :=
  match vals with
  | [] => Exec.ret Py.zero
  | _ :: _ => Exec.lift (Py.truediv_int (sum vals) (Z.of_nat (List.length vals)))
  end.

(** One turn of the loop over [zip(...)]. *)
Definition lv_step (acc : list Py.float * list Py.float)
    (x : string * Py.float * Py.float) : list Py.float * list Py.float :=
  let '(h_vals, t_vals) := acc in
  let '(st, h, t) := x in
  if (st =? "LV")%string then (h_vals ++ [h], t_vals ++ [t])%list else acc.

(** [zip(a, b, c)]: stops with the shortest. *)
Definition zip3 {A B C} (a : list A) (b : list B) (c : list C)
  : list (A * B * C) := combine (combine a b) c.

Definition likely_voter_polling_average : Exec.M (Py.float * Py.float) :=
  (sts <- Exec.gets (fun s => sample_type (data_dict s)) ;;
   hs <- Exec.gets (fun s => Harris_result (data_dict s)) ;;
   ts <- Exec.gets (fun s => Trump_result (data_dict s)) ;;
   let '(h_vals, t_vals) := fold_left lv_step (zip3 sts hs ts) ([], []) in
   h_avg <- average_or_zero h_vals ;;
   t_avg <- average_or_zero t_vals ;;
   Exec.ret (h_avg, t_avg))%exec.

Definition polling_history_change : Exec.M (Py.float * Py.float) :=
  (h <- Exec.gets (fun s => Harris_result (data_dict s)) ;;
   t <- Exec.gets (fun s => Trump_result (data_dict s)) ;;
   let latest_h := Py.slice h None (Some 30) in
   let latest_t := Py.slice t None (Some 30) in
   let earliest_h := Py.slice h (Some (-30)) None in
   let earliest_t := Py.slice t (Some (-30)) None in
   latest_h_avg <- average_or_zero latest_h ;;
   earliest_h_avg <- average_or_zero earliest_h ;;
   latest_t_avg <- average_or_zero latest_t ;;
   earliest_t_avg <- average_or_zero earliest_t ;;
   Exec.ret (Py.fsub latest_h_avg earliest_h_avg,
             Py.fsub latest_t_avg earliest_t_avg))%exec.

End Queries.

(** ** Specification-side definitions *)
Module Spec.

(** A line is blank when nothing but white space is on it. *)
Definition is_blank (line : string) : bool :=
  (Py.strip line =? "")%string.

Definition count_nonblank (lines : list string) : nat :=
  List.length (filter (fun l => negb (is_blank l)) lines).

(** The comma-separated fields of a line, as the parser sees them. *)
Definition fields (line : string) : list string :=
  Py.split "," (Py.strip line).

(** A valid input file, in the sense of the specification: one header
    line, and every data line that is not blank has the expected shape. *)
Definition valid_input (raw : list string) : bool :=
  match raw with
  | [] => false
  | _ :: data_lines =>
      forallb (fun l => is_blank l || is_ok (parse_line l)) data_lines
  end.

(** The table that results from appending [rows] to [d], column by
    column and in order. *)
Definition extend (d : columns) (rows : list row) : columns :=
  {| month := month d ++ map row_month rows;
     date := date d ++ map row_date rows;
     sample := sample d ++ map row_sample rows;
     sample_type := sample_type d ++ map row_sample_type rows;
     Harris_result := Harris_result d ++ map row_harris rows;
     Trump_result := Trump_result d ++ map row_trump rows |}.

(** The number a result field of the file stands for: [float] of the
    text of comma field [k], as it is. *)
Definition field_value (line : string) (k : nat) : result Py.float :=
  (p <- Py.index (fields line) k ;; Py.float_of_str p)%result.

(** The ways a data line can be malformed for the parser: fewer than
    five comma fields, a date or sample size that is no integer, a
    packed sample field that is not exactly two tokens, a result that is
    no number. *)
Definition malformed (line : string) : bool :=
  let parts := fields line in
  let tokens := Py.split_ws (Py.strip (nth 2 parts "")) in
  (List.length parts <? 5)%nat
  || negb (is_ok (Py.int (nth 1 parts "")))
  || negb (List.length tokens =? 2)%nat
  || negb (is_ok (Py.int (nth 0 tokens "")))
  || negb (is_ok (Py.float_of_str (nth 3 parts "")))
  || negb (is_ok (Py.float_of_str (nth 4 parts ""))).

(** A result stored as a fraction: between 0 and 1. *)
Definition is_fraction (x : Py.float) : bool :=
  Py.fle Py.zero x && Py.fle x (Py.float_of_Z 1).

(** All six columns have [n] entries. *)
Definition all_length (d : columns) (n : nat) : Prop :=
  List.length (month d) = n /\ List.length (date d) = n /\
  List.length (sample d) = n /\ List.length (sample_type d) = n /\
  List.length (Harris_result d) = n /\ List.length (Trump_result d) = n.

(** [m] is the maximum of [l]: an element that no element exceeds. *)
Definition is_maximum (l : list Py.float) (m : Py.float) : Prop :=
  In m l /\ forall x, In x l -> Py.fle x m = true.

(** The two maxima are tied: they differ by less than 1e-12. *)
Definition tied (a b : Py.float) : bool :=
  Py.flt (Py.fabs (Py.fsub a b)) epsilon.

(** The rows of the table that the likely-voter query looks at, by
    index: row [i] exists when the three columns involved have an entry
    [i], and it is selected when its sample type is "LV". *)
Definition lv_rows (d : columns) : list nat :=
  filter (fun i => (nth i (sample_type d) "" =? "LV")%string)
         (seq 0 (Nat.min (List.length (sample_type d))
                         (Nat.min (List.length (Harris_result d))
                                  (List.length (Trump_result d))))).

Definition lv_harris (d : columns) : list Py.float :=
  map (fun i => nth i (Harris_result d) Py.zero) (lv_rows d).

Definition lv_trump (d : columns) : list Py.float :=
  map (fun i => nth i (Trump_result d) Py.zero) (lv_rows d).

(** The arithmetic mean of a list: its sum divided by its length. *)
Definition mean (sum : list Py.float -> Py.float) (l : list Py.float)
  : Py.float :=
  Py.fdiv (sum l) (Py.float_of_Z (Z.of_nat (List.length l))).

(** The average of section 4.3: the mean, and 0.0 when there is
    nothing to average. *)
Definition mean_or_zero (sum : list Py.float -> Py.float)
    (l : list Py.float) : Py.float :=
  match l with
  | [] => Py.zero
  | _ :: _ => mean sum l
  end.

(** The first 30 entries, or all of them when there are fewer. *)
Definition latest (l : list Py.float) : list Py.float :=
  if (List.length l <=? 30)%nat then l else firstn 30 l.

(** The last 30 entries, or all of them when there are fewer. *)
Definition earliest (l : list Py.float) : list Py.float :=
  if (List.length l <=? 30)%nat then l else rev (firstn 30 (rev l)).

(** The row count the specification gives: the lines that are not
    blank, minus the header. *)
Definition rows_match_nonblank (raw : list string) : Prop :=
  exists s, build_data_dict (init raw) = (s, Ok tt) /\
            all_length (data_dict s) (count_nonblank raw - 1).

End Spec.

(** The state after one more row, and a state with other columns. *)
Definition add_row (d : columns) (r : row) : columns :=
  Spec.extend d [r].

Definition with_columns (s : PollReader) (d : columns) : PollReader :=
  {| raw_data := raw_data s; data_dict := d |}.

(** The test of the likely-voter loop, on a row of the zip. *)
Definition is_lv (x : string * Py.float * Py.float) : bool :=
  (fst (fst x) =? "LV")%string.

(** ** Sample inputs *)

Definition nl : string := String "010" "".

Definition header : string :=
  "month,date,sample,Harris result,Trump result" ++ nl.

(** A blank line between two good lines. *)
Definition file_with_blank_line : list string :=
  [header;
   "October,15,1500 LV,0.50,0.53" ++ nl;
   nl;
   "October,14,1200 RV,0.57,0.48" ++ nl].

(** The data line of the specification's example. *)
Definition file_with_percentages : list string :=
  [header; "October,15,1500 LV,57.0,53.2" ++ nl].

(** A line with a sixth comma field. *)
Definition file_with_extra_field : list string :=
  [header; "October,15,1500 LV,0.50,0.53,extra" ++ nl].

(** A good line followed by one whose date is no integer. *)
Definition file_with_bad_second_line : list string :=
  [header;
   "October,15,1500 LV,0.50,0.53" ++ nl;
   "October,xx,1200 RV,0.57,0.48" ++ nl].

(** Two lines, neither of a likely-voter sample. *)
Definition file_without_lv : list string :=
  [header;
   "October,15,1500 RV,0.50,0.53" ++ nl;
   "October,14,1200 A,0.57,0.48" ++ nl].

(** Both candidates reach infinity, in different rows. *)
Definition file_with_infinite_tie : list string :=
  [header;
   "Oct,2,10 LV,inf,0.2" ++ nl;
   "Oct,1,10 RV,0.3,inf" ++ nl].

(** A Harris column that starts with a NaN and then holds 0.9. *)
Definition file_with_nan_first : list string :=
  [header;
   "Oct,2,10 LV,nan,0.2" ++ nl;
   "Oct,1,10 RV,0.9,0.1" ++ nl].

Definition three_good_lines : list string :=
  [header;
   "October,15,1500 LV,0.50,0.53" ++ nl;
   "October,14,1200 RV,0.57,0.48" ++ nl;
   "Sept,1, 900   LV ,0.42,0.48"].

(** ** The rest of the module: reading the file and [main] *)
Module PyIO.

(** [f.readlines()] on the text of a file opened in text mode (line
    ends already translated to the line feed): the text is cut after
    every line feed; a last line without one is kept as it is. *)
Fixpoint readlines (text : string) : list string :=
  match text with
  | EmptyString => []
  | String c r =>
      if Ascii.eqb c "010" then String c EmptyString :: readlines r
      else match readlines r with
           | [] => [String c EmptyString]
           | l :: ls => String c l :: ls
           end
  end.

(** [format(y, ".2f")]: two digits after the point, the exact binary
    value rounded to the nearest hundredth, ties to even. *)
Definition hundredths (m : positive) (e : Z) : Z :=
  if 0 <=? e then Zpos m * 2 ^ e * 100
  else Py.round_half_even (Zpos m * 100) (2 ^ (- e)).

Definition two_digits (z : Z) : string :=
  if z <? 10 then "0" ++ Py.str_of_nat_Z z else Py.str_of_nat_Z z.

Definition format_2f (y : Py.float) : string :=
  match y with
  | S754_nan => "nan"
  | S754_infinity s => Py.sign_str s ++ "inf"
  | S754_zero s => Py.sign_str s ++ "0.00"
  | S754_finite s m e =>
      let t := hundredths m e in
      Py.sign_str s ++ Py.str_of_nat_Z (t / 100) ++ "." ++ two_digits (t mod 100)
  end.

Definition is_negative (y : Py.float) : bool :=
  match y with
  | S754_zero s | S754_infinity s | S754_finite s _ _ => s
  | S754_nan => false
  end.

(** [format(x, ".2%")] and, with [plus], [format(x, "+.2%")]: the
    number is multiplied by 100 as a float, written with two decimals
    and followed by a percent sign; with [plus], a "+" comes first
    unless the text starts with "-". *)
Definition format_percent (plus : bool) (x : Py.float) : string :=
  let y := Py.fmul x hundred in
  (if plus && negb (is_negative y) then "+" else "") ++ format_2f y ++ "%".

End PyIO.

(** What [open(path, 'r')] hands to [readlines]: the text of the file
    with every carriage return followed by a line feed, and every
    carriage return alone, turned into one line feed. *)
Fixpoint translate_newlines (text : string) : string :=
  match text with
  | EmptyString => EmptyString
  | String c r =>
      if Ascii.eqb c "013" then
        match r with
        | String c' r' =>
            if Ascii.eqb c' "010" then String "010" (translate_newlines r')
            else String "010" (translate_newlines r)
        | EmptyString => String "010" EmptyString
        end
      else String c (translate_newlines r)
  end.

(** A text without any carriage return. *)
Definition no_carriage_return (w : string) : bool :=
  forallb (fun c => negb (Ascii.eqb c "013")) (list_ascii_of_string w).

(** [__init__] on a file that could be opened: [text] is what the file
    holds.  (A file that cannot be opened raises in [open], before the
    object has any attribute; that path is not modelled.) *)
Definition init_from_text (text : string) : PollReader :=
  init (PyIO.readlines (translate_newlines text)).

(** A program run: the reader it works on and the lines it has
    printed. *)
Module Prog.

Record world : Type := { obj : PollReader; stdout : list string }.

Definition P (A : Type) : Type := world -> world * result A.

Definition bind {A B} (m : P A) (k : A -> P B) : P B :=
  fun w =>
    match m w with
    | (w', Ok a) => k a w'
    | (w', Raise e) => (w', Raise e)
    end.

(** A method call on the reader. *)
Definition call {A} (m : Exec.M A) : P A :=
  fun w =>
    let '(s', r) := m (obj w) in
    ({| obj := s'; stdout := stdout w |}, r).

(** [print(line)] *)
Definition print (line : string) : P unit :=
  fun w => ({| obj := obj w; stdout := (stdout w ++ [line])%list |}, Ok tt).

End Prog.

Declare Scope prog_scope.
Delimit Scope prog_scope with prog.
Notation "x <- c ;; k" := (Prog.bind c (fun x => k))
  (at level 61, c at next level, right associativity) : prog_scope.
Notation "' p <- c ;; k" := (Prog.bind c (fun x => let 'p := x in k))
  (at level 61, p pattern, c at next level, right associativity) : prog_scope.
Notation "c ;;; k" := (Prog.bind c (fun _ => k))
  (at level 61, right associativity) : prog_scope.

(** The body of [main] from the second statement on. *)
Definition main_body (sum : list Py.float -> Py.float) : Prog.P unit :=
  (Prog.call build_data_dict ;;;
   highest_polling <- Prog.call highest_polling_candidate ;;
   Prog.print ("Highest Polling Candidate: " ++ highest_polling) ;;;
   '(harris_avg, trump_avg) <- Prog.call (likely_voter_polling_average sum) ;;
   Prog.print "Likely Voter Polling Average:" ;;;
   Prog.print ("  Harris: " ++ PyIO.format_percent false harris_avg) ;;;
   Prog.print ("  Trump: " ++ PyIO.format_percent false trump_avg) ;;;
   '(harris_change, trump_change) <- Prog.call (polling_history_change sum) ;;
   Prog.print "Polling History Change:" ;;;
   Prog.print ("  Harris: " ++ PyIO.format_percent true harris_change) ;;;
   Prog.print ("  Trump: " ++ PyIO.format_percent true trump_change))%prog.

(** [main()] when [polling_data.csv] holds the lines [lines]: what it
    prints and how it ends. *)
Definition main (sum : list Py.float -> Py.float) (lines : list string)
  : list string * result unit :=
  let '(w, r) := main_body sum {| Prog.obj := init lines; Prog.stdout := [] |} in
  (Prog.stdout w, r).

(** What a data line stands for, column by column, read off its comma
    fields. *)
Module Fields.

Definition month_of (line : string) : result string :=
  Py.index (Spec.fields line) 0.

Definition date_of (line : string) : result Z :=
  (p <- Py.index (Spec.fields line) 1 ;; Py.int p)%result.

(** The two tokens of the packed third field. *)
Definition sample_tokens (line : string) : result (string * string) :=
  (p <- Py.index (Spec.fields line) 2 ;;
   Py.unpack2 (Py.split_ws (Py.strip p)))%result.

Definition sample_of (line : string) : result Z :=
  (tokens <- sample_tokens line ;; Py.int (fst tokens))%result.

Definition sample_type_of (line : string) : result string :=
  (tokens <- sample_tokens line ;; Ok (snd tokens))%result.

(** A text made of white space only. *)
Definition all_space (w : string) : bool :=
  forallb Py.isspace (list_ascii_of_string w).

(** A text without any white space. *)
Definition no_space (w : string) : bool :=
  forallb (fun c => negb (Py.isspace c)) (list_ascii_of_string w).

End Fields.

(** Two calls in a row. *)
Definition build_data_dict_twice : Exec.M unit :=
  (build_data_dict ;;; build_data_dict)%exec.

(** A table given by its two result columns alone. *)
Definition table_of_results (hs ts : list Py.float) : PollReader :=
  {| raw_data := [];
     data_dict := {| month := []; date := []; sample := []; sample_type := [];
                     Harris_result := hs; Trump_result := ts |} |}.

(** The floats 0.55 and 0.50. *)
Definition f055 : Py.float := S754_finite false 4953959590107546 (-53).
Definition f050 : Py.float := S754_finite false 4503599627370496 (-53).

(** * Properties *)

Local Open Scope list_scope.

(** ** Auxiliary facts: slicing *)

Lemma slice_from_1 {A} (l : list A) : Py.slice l (Some 1) None = tl l.
Proof.
  unfold Py.slice, Py.clamp_index.
  destruct l as [|x r]; [reflexivity|].
  cbn [List.length tl].
  replace (1 <? 0) with false by reflexivity.
  rewrite Z.min_l by lia.
  replace (Z.to_nat 1) with 1%nat by reflexivity.
  cbn [skipn].
  replace (Z.to_nat (Z.of_nat (S (List.length r)) - 1)) with (List.length r) by lia.
  apply firstn_all.
Qed.

Lemma slice_to {A} (l : list A) (k : Z) :
  0 <= k -> Py.slice l None (Some k) = firstn (Z.to_nat k) l.
Proof.
  intros Hk. unfold Py.slice, Py.clamp_index.
  replace (k <? 0) with false by (symmetry; apply Z.ltb_ge; lia).
  cbn [skipn Z.to_nat]. rewrite Z.sub_0_r.
  destruct (Z.le_ge_cases k (Z.of_nat (List.length l))) as [H|H].
  - rewrite Z.min_l by lia. reflexivity.
  - rewrite Z.min_r by lia. rewrite Nat2Z.id.
    rewrite firstn_all. symmetry. apply firstn_all2. lia.
Qed.

Lemma slice_last {A} (l : list A) (k : Z) :
  0 < k -> Py.slice l (Some (- k)) None = skipn (List.length l - Z.to_nat k) l.
Proof.
  intros Hk. unfold Py.slice, Py.clamp_index.
  replace (- k <? 0) with true by (symmetry; apply Z.ltb_lt; lia).
  set (n := List.length l).
  assert (Hlo : Z.to_nat (Z.max (- k + Z.of_nat n) 0) = (n - Z.to_nat k)%nat) by lia.
  rewrite Hlo.
  rewrite firstn_all2; [reflexivity|].
  rewrite length_skipn. fold n. lia.
Qed.

(** ** Auxiliary facts: the loop of [build_data_dict] *)

Lemma with_columns_same s : with_columns s (data_dict s) = s.
Proof. destruct s; reflexivity. Qed.

Lemma extend_nil d : Spec.extend d [] = d.
Proof.
  destruct d; unfold Spec.extend; cbn. now rewrite !app_nil_r.
Qed.

Lemma extend_cons d r rows :
  Spec.extend d (r :: rows) = Spec.extend (add_row d r) rows.
Proof.
  unfold add_row, Spec.extend; cbn. now rewrite <- !app_assoc.
Qed.

Lemma loop_body_ok i r s :
  parse_line i = Ok r ->
  loop_body i s = (with_columns s (add_row (data_dict s) r), Ok tt).
Proof.
  intros H. unfold loop_body, Exec.bind, Exec.lift. rewrite H.
  reflexivity.
Qed.

Lemma loop_body_raise i e s :
  parse_line i = Raise e -> loop_body i s = (s, Raise e).
Proof.
  intros H. unfold loop_body, Exec.bind, Exec.lift. now rewrite H.
Qed.

(** The loop over a prefix of lines that all parse appends their rows
    and goes on with the rest. *)
Lemma for_each_prefix pre : forall rows rest s,
  map parse_line pre = map Ok rows ->
  Exec.for_each loop_body (pre ++ rest) s =
  Exec.for_each loop_body rest (with_columns s (Spec.extend (data_dict s) rows)).
Proof.
  induction pre as [|i pre IH]; intros rows rest s H.
  - destruct rows; [|discriminate]. cbn [app].
    now rewrite extend_nil, with_columns_same.
  - destruct rows as [|r rows]; [discriminate|].
    cbn [map] in H. injection H as Hi Hpre.
    cbn [app Exec.for_each]. unfold Exec.bind at 1.
    rewrite (loop_body_ok _ _ _ Hi).
    rewrite (IH rows rest _ Hpre). cbn [data_dict with_columns raw_data].
    now rewrite extend_cons.
Qed.

Lemma for_each_all_ok lines rows s :
  map parse_line lines = map Ok rows ->
  Exec.for_each loop_body lines s =
  (with_columns s (Spec.extend (data_dict s) rows), Ok tt).
Proof.
  intros H. rewrite <- (app_nil_r lines).
  now rewrite (for_each_prefix lines rows [] s H).
Qed.

Lemma for_each_first_bad pre bad post rows e s :
  map parse_line pre = map Ok rows ->
  parse_line bad = Raise e ->
  Exec.for_each loop_body (pre ++ bad :: post) s =
  (with_columns s (Spec.extend (data_dict s) rows), Raise e).
Proof.
  intros Hpre Hbad. rewrite (for_each_prefix pre rows _ s Hpre).
  cbn [Exec.for_each]. unfold Exec.bind.
  now rewrite (loop_body_raise _ _ _ Hbad).
Qed.

Lemma all_ok_rows lines :
  forallb (fun l => is_ok (parse_line l)) lines = true ->
  exists rows, map parse_line lines = map Ok rows.
Proof.
  induction lines as [|l lines IH]; intros H.
  - now exists [].
  - cbn [forallb] in H. apply andb_prop in H as [Hl Hr].
    destruct (IH Hr) as [rows Hrows].
    destruct (parse_line l) as [r|e] eqn:E; [|discriminate].
    exists (r :: rows). cbn [map]. now rewrite E, Hrows.
Qed.

Lemma build_data_dict_unfold s :
  build_data_dict s = Exec.for_each loop_body (tl (raw_data s)) s.
Proof.
  unfold build_data_dict, Exec.bind, Exec.gets. now rewrite slice_from_1.
Qed.

Lemma lines_split lines :
  (exists rows, map parse_line lines = map Ok rows) \/
  (exists pre bad post rows e,
     lines = pre ++ bad :: post /\
     map parse_line pre = map Ok rows /\ parse_line bad = Raise e).
Proof.
  induction lines as [|l lines IH].
  - left. now exists [].
  - destruct (parse_line l) as [r|e] eqn:E.
    + destruct IH as [[rows H]|(pre & bad & post & rows & e & Hl & Hp & Hb)].
      * left. exists (r :: rows). cbn [map]. now rewrite E, H.
      * right. exists (l :: pre), bad, post, (r :: rows), e.
        subst lines. cbn [map app]. now rewrite E, Hp.
    + right. now exists [], l, lines, [], e.
Qed.

(** A successful run has parsed every data line. *)
Lemma build_data_dict_ok_inv s s' :
  build_data_dict s = (s', Ok tt) ->
  exists rows, map parse_line (tl (raw_data s)) = map Ok rows /\
               s' = with_columns s (Spec.extend (data_dict s) rows).
Proof.
  rewrite build_data_dict_unfold. intros H.
  destruct (lines_split (tl (raw_data s)))
    as [[rows Hr]|(pre & bad & post & rows & e & Hl & Hp & Hb)].
  - exists rows. split; [exact Hr|].
    rewrite (for_each_all_ok _ _ _ Hr) in H. now injection H as <-.
  - rewrite Hl, (for_each_first_bad _ _ _ _ _ _ Hp Hb) in H. discriminate.
Qed.

Lemma extend_all_length rows :
  Spec.all_length (Spec.extend empty_columns rows) (List.length rows).
Proof.
  unfold Spec.all_length, Spec.extend; cbn. now rewrite !length_map.
Qed.

Lemma map_ok_length {A B} (f : A -> result B) (l : list A) (rows : list B) :
  map f l = map Ok rows -> List.length rows = List.length l.
Proof.
  intros H. apply (f_equal (@List.length _)) in H.
  now rewrite !length_map in H.
Qed.

Lemma blank_line_raises l :
  Spec.is_blank l = true -> parse_line l = Raise IndexError.
Proof.
  unfold Spec.is_blank. intros H. apply String.eqb_eq in H.
  unfold parse_line. now rewrite H.
Qed.

Lemma all_ok_no_blank lines :
  forallb (fun l => is_ok (parse_line l)) lines = true ->
  Spec.count_nonblank lines = List.length lines.
Proof.
  unfold Spec.count_nonblank.
  induction lines as [|l lines IH]; intros H; [reflexivity|].
  cbn [forallb] in H. apply andb_prop in H as [Hl Hr].
  cbn [filter]. destruct (Spec.is_blank l) eqn:B.
  - rewrite (blank_line_raises _ B) in Hl. discriminate.
  - cbn [negb List.length]. now rewrite (IH Hr).
Qed.

(** ** Auxiliary facts: what one line parses to *)

Lemma parse_line_malformed l :
  is_ok (parse_line l) = negb (Spec.malformed l).
Proof.
  unfold parse_line, Spec.malformed, Spec.fields.
  destruct (Py.split "," (Py.strip l)) as [|p0 [|p1 [|p2 [|p3 [|p4 rest]]]]];
    cbn [Py.index nth_error rbind nth List.length Nat.ltb Nat.leb orb negb is_ok];
    try reflexivity;
    destruct (Py.int p1) as [d|?]; cbn [rbind is_ok negb orb]; try reflexivity;
    destruct (Py.split_ws (Py.strip p2)) as [|a [|b [|c r]]];
    cbn [Py.unpack2 rbind is_ok negb orb nth List.length Nat.eqb]; try reflexivity;
    destruct (Py.int a) as [n|?]; cbn [rbind is_ok negb orb]; try reflexivity;
    try (destruct (Py.float_of_str p3) as [h|?]; cbn [rbind is_ok negb orb]; try reflexivity;
    destruct (Py.float_of_str p4) as [t|?]; cbn [rbind is_ok negb orb]; reflexivity).
  all: idtac.
Qed.

Lemma parse_line_exn l e :
  parse_line l = Raise e -> e = IndexError \/ exists w, e = ValueError w.
Proof.
  unfold parse_line.
  assert (Hint : forall t e', Py.int t = Raise e' -> exists w, e' = ValueError w).
  { intros t e'. unfold Py.int.
    destruct (match Py.strip_by Py.isspace_number t with
              | String "+"%char r => (false, r)
              | String "-"%char r => (true, r)
              | _ => (false, Py.strip_by Py.isspace_number t) end) as [neg body].
    destruct (Py.int_digits body false 0 0) as [[[v n] rest]|].
    - destruct (Nat.ltb _ _); [intros [= <-]; eauto|].
      destruct rest; [discriminate|]. intros [= <-]. eauto.
    - intros [= <-]. eauto. }
  assert (Hfl : forall t e', Py.float_of_str t = Raise e' -> exists w, e' = ValueError w).
  { intros t e'. unfold Py.float_of_str. destruct (Py.parse_float t); [discriminate|].
    intros [= <-]. eauto. }
  assert (Hix : forall (p : list string) k e', Py.index p k = Raise e' -> e' = IndexError).
  { intros p k e'. unfold Py.index. destruct (nth_error p k); [discriminate|].
    now intros [= <-]. }
  assert (Hun : forall (p : list string) e', Py.unpack2 p = Raise e' -> exists w, e' = ValueError w).
  { intros p e'. destruct p as [|a [|b [|c r]]]; cbn; try discriminate; intros [= <-]; eauto. }
  repeat match goal with
  | |- rbind ?c _ = Raise _ -> _ =>
      let E := fresh "E" in
      destruct c as [?|?] eqn:E; cbn [rbind];
      [| intros [= <-];
         first [ left; now apply Hix in E
               | right; now apply Hint in E
               | right; now apply Hfl in E
               | right; now apply Hun in E ] ]
  | |- (let '(_, _) := ?p in _) = Raise _ -> _ => destruct p
  end.
  discriminate.
Qed.

Lemma parse_line_field_values l r :
  parse_line l = Ok r ->
  Spec.field_value l 3 = Ok (row_harris r) /\
  Spec.field_value l 4 = Ok (row_trump r).
Proof.
  unfold parse_line, Spec.field_value, Spec.fields.
  set (parts := Py.split "," (Py.strip l)).
  destruct (Py.index parts 0); cbn [rbind]; [|discriminate].
  destruct (Py.index parts 1); cbn [rbind]; [|discriminate].
  destruct (Py.int _); cbn [rbind]; [|discriminate].
  destruct (Py.index parts 2); cbn [rbind]; [|discriminate].
  destruct (Py.unpack2 _) as [[x y]|]; cbn [rbind]; [|discriminate].
  destruct (Py.int x); cbn [rbind]; [|discriminate].
  destruct (Py.index parts 3); cbn [rbind]; [|discriminate].
  destruct (Py.float_of_str _); cbn [rbind]; [|discriminate].
  destruct (Py.index parts 4); cbn [rbind]; [|discriminate].
  destruct (Py.float_of_str _); cbn [rbind]; [|discriminate].
  intros [= <-]. cbn. auto.
Qed.

(** ** Auxiliary facts: the order on floats

    [SFcompare] orders the numbers that are not NaN by sign, exponent
    and mantissa. *)

Ltac cmp_cases :=
  repeat match goal with
  | H : context [Pos.compare_cont Eq ?a ?b] |- _ => change (Pos.compare_cont Eq a b) with (Pos.compare a b) in H
  | |- context [Pos.compare_cont Eq ?a ?b] => change (Pos.compare_cont Eq a b) with (Pos.compare a b)
  end;
  repeat match goal with
  | H : context [Z.compare ?a ?b] |- _ => destruct (Z.compare_spec a b); cbn in H
  | |- context [Z.compare ?a ?b] => destruct (Z.compare_spec a b); cbn
  | H : context [Pos.compare ?a ?b] |- _ => destruct (Pos.compare_spec a b); cbn in H
  | |- context [Pos.compare ?a ?b] => destruct (Pos.compare_spec a b); cbn
  end;
  subst; try reflexivity; try discriminate; try lia.

Lemma fle_refl x : Py.is_nan x = false -> Py.fle x x = true.
Proof.
  destruct x as [s|s| |s m e]; cbn; try discriminate; intros _; try reflexivity.
  - now destruct s.
  - unfold Py.fle, SFleb, SFcompare. destruct s; cmp_cases.
Qed.

Lemma fle_total a b :
  Py.is_nan a = false -> Py.is_nan b = false ->
  Py.flt a b = false -> Py.fle b a = true.
Proof.
  unfold Py.fle, Py.flt, SFleb, SFltb, SFcompare.
  destruct a as [s|s| |s m e], b as [s'|s'| |s' m' e']; cbn;
    try discriminate; intros _ _; try destruct s; try destruct s';
    try reflexivity; try discriminate; intros H; cmp_cases.
Qed.

Lemma fle_flt_trans a b c :
  Py.fle a b = true -> Py.flt b c = true -> Py.fle a c = true.
Proof.
  unfold Py.fle, Py.flt, SFleb, SFltb, SFcompare.
  destruct a as [s|s| |s m e], b as [s'|s'| |s' m' e'], c as [s''|s''| |s'' m'' e''];
    try discriminate; try destruct s; try destruct s'; try destruct s'';
    try reflexivity; try discriminate; intros H1 H2; cmp_cases.
Qed.

Lemma fsub_eq_zero a b :
  Py.is_finite a = true -> Py.is_finite b = true ->
  Py.flt a b = false -> Py.flt b a = false ->
  exists s, Py.fsub a b = S754_zero s.
Proof.
  unfold Py.flt, SFltb, SFcompare.
  destruct a as [s|s| |s m e], b as [s'|s'| |s' m' e']; cbn [Py.is_finite];
    try discriminate; intros _ _.
  - intros _ _. destruct s, s'; cbn; eauto.
  - destruct s'; discriminate.
  - destruct s; discriminate.
  - destruct s, s'; try discriminate; intros H1 H2; cmp_cases;
      unfold Py.fsub, SFsub; cbn [cond_Zopp]; rewrite Z.sub_diag; cbn; eauto.
Qed.

Lemma flt_fle a b : Py.flt a b = true -> Py.fle a b = true.
Proof.
  unfold Py.fle, Py.flt, SFleb, SFltb.
  destruct (SFcompare a b) as [[| |]|]; now try discriminate.
Qed.

Lemma fle_trans a b c :
  Py.fle a b = true -> Py.fle b c = true -> Py.fle a c = true.
Proof.
  unfold Py.fle, SFleb, SFcompare.
  destruct a as [s|s| |s m e], b as [s'|s'| |s' m' e'], c as [s''|s''| |s'' m'' e''];
    try discriminate; try destruct s; try destruct s'; try destruct s'';
    try reflexivity; try discriminate; intros H1 H2; cmp_cases.
Qed.

Lemma fle_not_nan a b : Py.fle a b = true -> Py.is_nan a = false /\ Py.is_nan b = false.
Proof.
  unfold Py.fle, SFleb, SFcompare.
  destruct a, b; try discriminate; auto.
Qed.

Lemma finite_not_nan x : Py.is_finite x = true -> Py.is_nan x = false.
Proof. now destruct x. Qed.

(** The loop of [max] keeps an element that no element seen exceeds. *)
Lemma max_from_spec l : forall best,
  Py.is_nan best = false ->
  forallb (fun x => negb (Py.is_nan x)) l = true ->
  In (Py.max_from best l) (best :: l) /\
  Py.fle best (Py.max_from best l) = true /\
  forall x, In x l -> Py.fle x (Py.max_from best l) = true.
Proof.
  induction l as [|x r IH]; intros best Hb Hl.
  - cbn [Py.max_from]. repeat split; [now left | now apply fle_refl | intros ? []].
  - cbn [forallb] in Hl. apply andb_prop in Hl as [Hx Hr].
    apply negb_true_iff in Hx. cbn [Py.max_from].
    unfold Py.fgt. destruct (Py.flt best x) eqn:C.
    + destruct (IH x Hx Hr) as (Hin & Hle & Hall).
      repeat split.
      * destruct Hin as [<-|Hin]; [right; now left | right; now right].
      * apply (fle_trans _ x); [apply flt_fle; exact C | exact Hle].
      * intros y [<-|Hy]; auto.
    + destruct (IH best Hb Hr) as (Hin & Hle & Hall).
      repeat split.
      * destruct Hin as [<-|Hin]; [now left | right; now right].
      * exact Hle.
      * intros y [<-|Hy]; auto.
        apply (fle_trans _ best); [apply fle_total; assumption | exact Hle].
Qed.

Lemma max_nonempty_spec l :
  l <> [] -> forallb Py.is_finite l = true ->
  exists m, Py.max l = Ok m /\ Spec.is_maximum l m /\ Py.is_finite m = true.
Proof.
  intros Hne Hfin. destruct l as [|x r]; [contradiction|].
  assert (Hnn : forallb (fun x => negb (Py.is_nan x)) (x :: r) = true).
  { apply forallb_forall. intros y Hy.
    rewrite forallb_forall in Hfin. now rewrite finite_not_nan by auto. }
  cbn [forallb] in Hnn. apply andb_prop in Hnn as [Hx Hr].
  apply negb_true_iff in Hx.
  destruct (max_from_spec r x Hx Hr) as (Hin & Hle & Hall).
  exists (Py.max_from x r). repeat split; auto.
  - intros y [<-|Hy]; auto.
  - rewrite forallb_forall in Hfin. auto.
Qed.

Lemma tied_of_equal a b :
  Py.is_finite a = true -> Py.is_finite b = true ->
  Py.flt a b = false -> Py.flt b a = false -> Spec.tied a b = true.
Proof.
  intros Ha Hb H1 H2. unfold Spec.tied.
  destruct (fsub_eq_zero a b Ha Hb H1 H2) as [s ->]. reflexivity.
Qed.

(** ** Auxiliary facts: averages and slices *)

Lemma average_or_zero_spec sum l s :
  average_or_zero sum l s = (s, Ok (Spec.mean_or_zero sum l)).
Proof.
  destruct l as [|x r]; [reflexivity|].
  unfold average_or_zero, Exec.lift, Py.truediv_int, Spec.mean_or_zero, Spec.mean.
  replace (Z.of_nat (List.length (x :: r)) =? 0) with false; [reflexivity|].
  symmetry. apply Z.eqb_neq. cbn [List.length]. lia.
Qed.

Lemma slice_latest l : Py.slice l None (Some 30) = Spec.latest l.
Proof.
  rewrite slice_to by lia. unfold Spec.latest.
  change (Z.to_nat 30) with 30%nat.
  destruct (Nat.leb_spec (List.length l) 30); [|reflexivity].
  now apply firstn_all2.
Qed.

Lemma slice_earliest l : Py.slice l (Some (-30)) None = Spec.earliest l.
Proof.
  change (-30) with (- (30)). rewrite slice_last by lia. unfold Spec.earliest.
  change (Z.to_nat 30) with 30%nat.
  destruct (Nat.leb_spec (List.length l) 30) as [H|H].
  - replace (List.length l - 30)%nat with 0%nat by lia. reflexivity.
  - now rewrite firstn_rev, rev_involutive.
Qed.

(** ** Auxiliary facts: the likely-voter loop *)

Lemma lv_fold rows : forall a b,
  fold_left lv_step rows (a, b) =
  (a ++ map (fun x => snd (fst x)) (filter is_lv rows),
   b ++ map snd (filter is_lv rows)).
Proof.
  induction rows as [|[[st h] t] rows IH]; intros a b.
  - cbn. now rewrite !app_nil_r.
  - cbn [fold_left lv_step filter].
    change (is_lv (st, h, t)) with (st =? "LV")%string.
    destruct (st =? "LV")%string.
    + rewrite IH. cbn [map fst snd]. now rewrite <- !app_assoc.
    + apply IH.
Qed.

Lemma filter_seq_shift (f : nat -> bool) n :
  filter f (seq 1 n) = map S (filter (fun i => f (S i)) (seq 0 n)).
Proof.
  rewrite <- seq_shift. induction (seq 0 n) as [|i l IH]; [reflexivity|].
  cbn [map filter]. destruct (f (S i)); cbn [map]; now rewrite IH.
Qed.

Lemma lv_zip sts : forall hs ts,
  let n := Nat.min (List.length sts) (Nat.min (List.length hs) (List.length ts)) in
  let idx := filter (fun i => (nth i sts "" =? "LV")%string) (seq 0 n) in
  map (fun x => snd (fst x)) (filter is_lv (zip3 sts hs ts)) =
    map (fun i => nth i hs Py.zero) idx /\
  map snd (filter is_lv (zip3 sts hs ts)) = map (fun i => nth i ts Py.zero) idx.
Proof.
  induction sts as [|st sts IH]; intros hs ts; [now cbn|].
  destruct hs as [|h hs]; [now cbn|].
  destruct ts as [|t ts].
  { unfold zip3. rewrite combine_nil. cbn [List.length].
    rewrite !Nat.min_0_r. now cbn. }
  cbn zeta. cbn [List.length]. rewrite <- !Nat.succ_min_distr.
  destruct (IH hs ts) as [IHh IHt]. cbn zeta in IHh, IHt.
  unfold zip3 in *. cbn [combine seq filter nth].
  rewrite (filter_seq_shift (fun i => (nth i (st :: sts) "" =? "LV")%string)).
  cbn [nth]. change (is_lv (st, h, t)) with (st =? "LV")%string.
  destruct (st =? "LV")%string; cbn [map fst snd nth];
    rewrite !map_map; cbn [nth]; now rewrite IHh, IHt.
Qed.

Lemma mean_or_zero_nonempty sum l :
  l <> [] -> Spec.mean_or_zero sum l = Spec.mean sum l.
Proof. destruct l; [contradiction|reflexivity]. Qed.

Lemma latest_nonempty l : l <> [] -> Spec.latest l <> [].
Proof.
  unfold Spec.latest. destruct (Nat.leb_spec (List.length l) 30); [auto|].
  intros _ E. apply (f_equal (@List.length _)) in E.
  rewrite length_firstn in E. cbn [List.length] in E. lia.
Qed.

Lemma earliest_nonempty l : l <> [] -> Spec.earliest l <> [].
Proof.
  unfold Spec.earliest. destruct (Nat.leb_spec (List.length l) 30); [auto|].
  intros _ E. apply (f_equal (@List.length _)) in E.
  rewrite length_rev, length_firstn, length_rev in E. cbn [List.length] in E. lia.
Qed.

(** ** Auxiliary facts: what the queries return *)

Lemma likely_voter_polling_average_run sum s :
  likely_voter_polling_average sum s =
  (s, Ok (Spec.mean_or_zero sum (Spec.lv_harris (data_dict s)),
          Spec.mean_or_zero sum (Spec.lv_trump (data_dict s)))).
Proof.
  unfold likely_voter_polling_average, Exec.bind, Exec.gets.
  rewrite lv_fold. cbn [app].
  destruct (lv_zip (sample_type (data_dict s)) (Harris_result (data_dict s))
                   (Trump_result (data_dict s))) as [Hh Ht].
  cbn zeta in Hh, Ht. rewrite Hh, Ht.
  fold (Spec.lv_rows (data_dict s)).
  fold (Spec.lv_harris (data_dict s)). fold (Spec.lv_trump (data_dict s)).
  now rewrite !average_or_zero_spec.
Qed.

Lemma polling_history_change_run sum s :
  polling_history_change sum s =
  (s, Ok (Py.fsub (Spec.mean_or_zero sum (Spec.latest (Harris_result (data_dict s))))
                  (Spec.mean_or_zero sum (Spec.earliest (Harris_result (data_dict s)))),
          Py.fsub (Spec.mean_or_zero sum (Spec.latest (Trump_result (data_dict s))))
                  (Spec.mean_or_zero sum (Spec.earliest (Trump_result (data_dict s)))))).
Proof.
  unfold polling_history_change, Exec.bind, Exec.gets.
  rewrite !slice_latest, !slice_earliest.
  now rewrite !average_or_zero_spec.
Qed.

(** ** Auxiliary facts: computations that only read *)

Lemma read_only_ret {A} (a : A) : Exec.read_only (Exec.ret a).
Proof. intros s. reflexivity. Qed.

Lemma read_only_lift {A} (r : result A) : Exec.read_only (Exec.lift r).
Proof. intros s. reflexivity. Qed.

Lemma read_only_gets {A} (f : PollReader -> A) : Exec.read_only (Exec.gets f).
Proof. intros s. reflexivity. Qed.

Lemma read_only_bind {A B} (m : Exec.M A) (k : A -> Exec.M B) :
  Exec.read_only m -> (forall a, Exec.read_only (k a)) ->
  Exec.read_only (Exec.bind m k).
Proof.
  intros Hm Hk s. unfold Exec.bind. specialize (Hm s).
  destruct (m s) as [s' [a|e]]; cbn [fst] in Hm; subst s'.
  - apply Hk.
  - reflexivity.
Qed.

Lemma read_only_average_or_zero sum l : Exec.read_only (average_or_zero sum l).
Proof.
  destruct l; [apply read_only_ret | apply read_only_lift].
Qed.

Create HintDb read_only.
#[local] Hint Resolve read_only_ret read_only_lift read_only_gets
  read_only_average_or_zero : read_only.

Ltac read_only_steps :=
  repeat first
    [ apply read_only_bind; [auto with read_only | intros ?]
    | match goal with
      | |- Exec.read_only (let '(_, _) := ?p in _) => destruct p
      | |- Exec.read_only (if ?c then _ else _) => destruct c
      end
    | solve [auto with read_only] ].

Lemma highest_polling_candidate_read_only :
  Exec.read_only highest_polling_candidate.
Proof. unfold highest_polling_candidate. read_only_steps. Qed.

Lemma likely_voter_polling_average_read_only sum :
  Exec.read_only (likely_voter_polling_average sum).
Proof. unfold likely_voter_polling_average. read_only_steps. Qed.

Lemma polling_history_change_read_only sum :
  Exec.read_only (polling_history_change sum).
Proof. unfold polling_history_change. read_only_steps. Qed.

(** * The claims *)

(** ** Sanity: the specification's own examples *)

Example highest_polling_candidate_example :
  snd (highest_polling_candidate (fst (build_data_dict (init three_good_lines))))
  = Ok "Harris 57.0%"%string.
Proof. vm_compute. reflexivity. Qed.

(** Equal maxima are reported as a tie, a greater Trump maximum as his. *)
Example highest_polling_candidate_tie :
  snd (highest_polling_candidate
         (fst (build_data_dict
                 (init [header; "Oct,2,10 LV,0.5,0.41"; "Oct,1,10 RV,0.3,0.5"]%string))))
  = Ok "EVEN 50.0%"%string.
Proof. vm_compute. reflexivity. Qed.

Example highest_polling_candidate_trump :
  snd (highest_polling_candidate
         (fst (build_data_dict
                 (init [header; "Oct,2,10 LV,0.5,0.41"; "Oct,1,10 RV,0.3,0.535"]%string))))
  = Ok "Trump 53.5%"%string.
Proof. vm_compute. reflexivity. Qed.

Example epsilon_literal : Py.float_of_str "1e-12" = Ok epsilon.
Proof. vm_compute. reflexivity. Qed.

(** The likely-voter rows of [three_good_lines] are the first and the
    third: (0.50 + 0.42) / 2 and (0.53 + 0.48) / 2, as CPython computes
    them (0.45999999999999996 and 0.505). *)
Example likely_voter_polling_average_example :
  snd (likely_voter_polling_average Py.sum_left
         (fst (build_data_dict (init three_good_lines))))
  = Ok (S754_finite false 8286623314361712 (-54),
        S754_finite false 4548635623644201 (-53)).
Proof. vm_compute. reflexivity. Qed.

(** With fewer than 30 rows both slices are the whole column and the
    change is 0.0. *)
Example polling_history_change_example :
  snd (polling_history_change Py.sum_compensated
         (fst (build_data_dict (init three_good_lines))))
  = Ok (Py.zero, Py.zero).
Proof. vm_compute. reflexivity. Qed.

(** ** C1 *)

(** C1 fails on the code where a maximum is no number.  When both
    candidates reach infinity the two maxima are equal, yet their
    difference is a NaN, the tie test fails and "Trump" is named although
    his maximum is not greater (the docstring asks for "EVEN" when the
    maxima are equal).  When the Harris column starts with a NaN, [max]
    keeps the NaN, the 0.9 that follows is never seen, and "Trump" is
    named with 20.0%. *)
Theorem highest_polling_candidate_without_winner :
  (let s := fst (build_data_dict (init file_with_infinite_tie)) in
   snd (build_data_dict (init file_with_infinite_tie)) = Ok tt /\
   Py.max (Harris_result (data_dict s)) = Ok (S754_infinity false) /\
   Py.max (Trump_result (data_dict s)) = Ok (S754_infinity false) /\
   Spec.tied (S754_infinity false) (S754_infinity false) = false /\
   Py.flt (S754_infinity false) (S754_infinity false) = false /\
   snd (highest_polling_candidate s) = Ok "Trump inf%"%string) /\
  (let s := fst (build_data_dict (init file_with_nan_first)) in
   snd (build_data_dict (init file_with_nan_first)) = Ok tt /\
   Harris_result (data_dict s)
     = [S754_nan; S754_finite false 8106479329266893 (-53)] /\
   Py.float_of_str "0.9" = Ok (S754_finite false 8106479329266893 (-53)) /\
   Py.max (Harris_result (data_dict s)) = Ok S754_nan /\
   snd (highest_polling_candidate s) = Ok "Trump 20.0%"%string).
Proof.
  split; cbv zeta; repeat split; vm_compute; reflexivity.
Qed.

(** ** X18: the tables on which C1 holds *)

(** X18.  On a table whose Harris and Trump columns are not empty and hold
    numbers (finite floats), [highest_polling_candidate] takes the
    maximum of each column on its own.  When the two maxima differ by
    less than 1e-12 it returns "EVEN " followed by the Harris maximum
    times 100 with one decimal and a "%"; otherwise the candidate whose
    maximum is strictly greater is named, followed by that maximum
    formatted the same way.  The table is left as it was. *)
Theorem highest_polling_candidate_spec s :
  Harris_result (data_dict s) <> [] ->
  Trump_result (data_dict s) <> [] ->
  forallb Py.is_finite (Harris_result (data_dict s)) = true ->
  forallb Py.is_finite (Trump_result (data_dict s)) = true ->
  exists max_h max_t out,
    Spec.is_maximum (Harris_result (data_dict s)) max_h /\
    Spec.is_maximum (Trump_result (data_dict s)) max_t /\
    highest_polling_candidate s = (s, Ok out) /\
    ((Spec.tied max_h max_t = true /\
      out = ("EVEN " ++ percent_1f max_h)%string) \/
     (Spec.tied max_h max_t = false /\ Py.flt max_t max_h = true /\
      out = ("Harris " ++ percent_1f max_h)%string) \/
     (Spec.tied max_h max_t = false /\ Py.flt max_h max_t = true /\
      out = ("Trump " ++ percent_1f max_t)%string)).
Proof.
  intros Hh Ht Fh Ft.
  destruct (max_nonempty_spec _ Hh Fh) as (mh & Emh & Mh & Fmh).
  destruct (max_nonempty_spec _ Ht Ft) as (mt & Emt & Mt & Fmt).
  unfold highest_polling_candidate, Exec.bind, Exec.gets, Exec.lift, Exec.ret.
  rewrite Emh, Emt. fold (Spec.tied mh mt).
  exists mh, mt.
  destruct (Spec.tied mh mt) eqn:T.
  - eexists. split; [exact Mh|]. split; [exact Mt|]. split; [reflexivity|].
    left. now split.
  - unfold Py.fgt. destruct (Py.flt mt mh) eqn:G.
    + eexists. split; [exact Mh|]. split; [exact Mt|]. split; [reflexivity|].
      right; left. now repeat split.
    + eexists. split; [exact Mh|]. split; [exact Mt|]. split; [reflexivity|].
      right; right. split; [reflexivity|]. split; [|reflexivity].
      destruct (Py.flt mh mt) eqn:L; [reflexivity|].
      rewrite (tied_of_equal mh mt Fmh Fmt L G) in T. discriminate.
Qed.

Lemma highest_polling_candidate_spec_witness :
  let s := fst (build_data_dict (init three_good_lines)) in
  Harris_result (data_dict s) <> [] /\
  Trump_result (data_dict s) <> [] /\
  exists max_h max_t out,
    Spec.is_maximum (Harris_result (data_dict s)) max_h /\
    Spec.is_maximum (Trump_result (data_dict s)) max_t /\
    highest_polling_candidate s = (s, Ok out) /\
    ((Spec.tied max_h max_t = true /\
      out = ("EVEN " ++ percent_1f max_h)%string) \/
     (Spec.tied max_h max_t = false /\ Py.flt max_t max_h = true /\
      out = ("Harris " ++ percent_1f max_h)%string) \/
     (Spec.tied max_h max_t = false /\ Py.flt max_h max_t = true /\
      out = ("Trump " ++ percent_1f max_t)%string)).
Proof.
  cbv zeta.
  assert (Hh : Harris_result (data_dict (fst (build_data_dict (init three_good_lines)))) <> [])
    by (vm_compute; discriminate).
  assert (Ht : Trump_result (data_dict (fst (build_data_dict (init three_good_lines)))) <> [])
    by (vm_compute; discriminate).
  split; [exact Hh|]. split; [exact Ht|].
  apply (highest_polling_candidate_spec
           (fst (build_data_dict (init three_good_lines))) Hh Ht);
    vm_compute; reflexivity.
Defined.

(** ** C2 *)

(** C2.  [likely_voter_polling_average] returns the pair of the average
    of the Harris results and the average of the Trump results of
    exactly the rows whose sample type is "LV", each computed on its own
    filtered list; as soon as one row is selected, each average is the
    arithmetic mean (sum divided by count).  The table is left as it
    was. *)
Theorem likely_voter_polling_average_spec sum s :
  likely_voter_polling_average sum s =
    (s, Ok (Spec.mean_or_zero sum (Spec.lv_harris (data_dict s)),
            Spec.mean_or_zero sum (Spec.lv_trump (data_dict s)))) /\
  (Spec.lv_rows (data_dict s) <> [] ->
   likely_voter_polling_average sum s =
     (s, Ok (Spec.mean sum (Spec.lv_harris (data_dict s)),
             Spec.mean sum (Spec.lv_trump (data_dict s))))).
Proof.
  split; [apply likely_voter_polling_average_run|].
  intros Hne. rewrite likely_voter_polling_average_run.
  unfold Spec.lv_harris, Spec.lv_trump.
  destruct (Spec.lv_rows (data_dict s)); [contradiction|reflexivity].
Qed.

(** ** C3 *)

(** C3.  [polling_history_change] averages each result column over its
    first 30 entries (all of them when there are fewer) and over its
    last 30 entries (likewise), and returns, for Harris and for Trump,
    the first average minus the second; it raises for no table, short
    ones included, and on a table that is not empty each average is the
    arithmetic mean. *)
Theorem polling_history_change_spec sum s :
  let h := Harris_result (data_dict s) in
  let t := Trump_result (data_dict s) in
  polling_history_change sum s =
    (s, Ok (Py.fsub (Spec.mean_or_zero sum (Spec.latest h))
                    (Spec.mean_or_zero sum (Spec.earliest h)),
            Py.fsub (Spec.mean_or_zero sum (Spec.latest t))
                    (Spec.mean_or_zero sum (Spec.earliest t)))) /\
  (h <> [] -> t <> [] ->
   polling_history_change sum s =
     (s, Ok (Py.fsub (Spec.mean sum (Spec.latest h))
                     (Spec.mean sum (Spec.earliest h)),
             Py.fsub (Spec.mean sum (Spec.latest t))
                     (Spec.mean sum (Spec.earliest t))))).
Proof.
  cbv zeta. split; [apply polling_history_change_run|].
  intros Hh Ht. rewrite polling_history_change_run.
  now rewrite !mean_or_zero_nonempty
    by auto using latest_nonempty, earliest_nonempty.
Qed.

(** ** C4 *)

(** C4, as stated, fails: a blank line among the data lines is not
    skipped.  The file below is valid (its three lines that are not blank
    are well formed), yet parsing raises [IndexError] at the blank line
    instead of producing the two rows the count promises. *)
Lemma blank_line_is_not_skipped :
  Spec.valid_input file_with_blank_line = true /\
  snd (build_data_dict (init file_with_blank_line)) = Raise IndexError /\
  ~ Spec.rows_match_nonblank file_with_blank_line.
Proof.
  split; [vm_compute; reflexivity|].
  split; [vm_compute; reflexivity|].
  intros (s & H & _). vm_compute in H. discriminate.
Qed.

(** C4, amended.  When every line after the first parses as a data row
    (which a blank line does not), [build_data_dict], called once on a
    fresh reader, succeeds; the number of rows is the number of lines
    minus one, all six columns have exactly that length, and it is also
    the number of data lines that are not blank. *)
Theorem build_data_dict_row_count raw :
  forallb (fun l => is_ok (parse_line l)) (tl raw) = true ->
  exists s,
    build_data_dict (init raw) = (s, Ok tt) /\
    Spec.all_length (data_dict s) (List.length raw - 1) /\
    Spec.count_nonblank (tl raw) = (List.length raw - 1)%nat.
Proof.
  intros H. destruct (all_ok_rows _ H) as [rows Hrows].
  eexists. split.
  - rewrite build_data_dict_unfold. cbn [init raw_data].
    apply (for_each_all_ok _ _ _ Hrows).
  - assert (Hlen : List.length (tl raw) = (List.length raw - 1)%nat)
      by (destruct raw; cbn [tl List.length]; lia).
    split.
    + cbn [with_columns data_dict init]. rewrite <- Hlen.
      rewrite <- (map_ok_length _ _ _ Hrows). apply extend_all_length.
    + rewrite <- Hlen. now apply all_ok_no_blank.
Qed.

Lemma build_data_dict_row_count_witness :
  forallb (fun l => is_ok (parse_line l)) (tl three_good_lines) = true /\
  exists s,
    build_data_dict (init three_good_lines) = (s, Ok tt) /\
    Spec.all_length (data_dict s) (List.length three_good_lines - 1) /\
    Spec.count_nonblank (tl three_good_lines)
      = (List.length three_good_lines - 1)%nat.
Proof.
  split; [vm_compute; reflexivity|].
  apply (build_data_dict_row_count three_good_lines).
  vm_compute; reflexivity.
Defined.

(** ** C5 *)

(** C5, as stated, fails: no value is rescaled or checked against
    [0,1].  The specification's own data line, with 57.0 in the Harris
    field, stores the float 57.0, which is no fraction and is not what
    0.570 reads as. *)
Lemma percentage_is_stored_unscaled :
  exists s,
    build_data_dict (init file_with_percentages) = (s, Ok tt) /\
    Harris_result (data_dict s) = [Py.float_of_Z 57] /\
    forallb Spec.is_fraction (Harris_result (data_dict s)) = false /\
    forallb Spec.is_fraction (Trump_result (data_dict s)) = false /\
    Py.float_of_str "0.570" <> Ok (Py.float_of_Z 57).
Proof.
  eexists. split; [vm_compute; reflexivity|].
  cbn [data_dict Harris_result Trump_result].
  split; [vm_compute; reflexivity|].
  split; [vm_compute; reflexivity|].
  split; [vm_compute; reflexivity|].
  vm_compute. discriminate.
Qed.

(** C5, amended.  After a successful parse the stored Harris and Trump
    results are, row by row and in file order, exactly what [float]
    reads in the fourth and the fifth comma field of the line: the
    number is stored as written, neither divided by 100 nor checked to
    lie in [0,1]. *)
Theorem results_stored_as_written raw s :
  build_data_dict (init raw) = (s, Ok tt) ->
  map Ok (Harris_result (data_dict s))
    = map (fun l => Spec.field_value l 3) (tl raw) /\
  map Ok (Trump_result (data_dict s))
    = map (fun l => Spec.field_value l 4) (tl raw).
Proof.
  intros H. apply build_data_dict_ok_inv in H as (rows & Hrows & ->).
  cbn [init raw_data data_dict with_columns Spec.extend empty_columns
       Harris_result Trump_result app] in *.
  revert rows Hrows. induction (tl raw) as [|l ls IH]; intros rows Hrows.
  - destruct rows; [now cbn|discriminate].
  - destruct rows as [|r rows]; [discriminate|].
    cbn [map] in Hrows. injection Hrows as Hl Hls.
    destruct (parse_line_field_values l r Hl) as [E3 E4].
    destruct (IH rows Hls) as [IHh IHt].
    cbn [map]. now rewrite E3, E4, IHh, IHt.
Qed.

Lemma results_stored_as_written_witness :
  let s := fst (build_data_dict (init file_with_percentages)) in
  build_data_dict (init file_with_percentages) = (s, Ok tt) /\
  map Ok (Harris_result (data_dict s))
    = map (fun l => Spec.field_value l 3) (tl file_with_percentages) /\
  map Ok (Trump_result (data_dict s))
    = map (fun l => Spec.field_value l 4) (tl file_with_percentages).
Proof.
  cbv zeta.
  assert (H : build_data_dict (init file_with_percentages)
              = (fst (build_data_dict (init file_with_percentages)), Ok tt))
    by (vm_compute; reflexivity).
  split; [exact H|].
  exact (results_stored_as_written file_with_percentages _ H).
Defined.

(** ** C6 *)

(** C6.  On a table none of whose rows has the sample type "LV", the
    empty table included, [likely_voter_polling_average] returns exactly
    (0.0, 0.0): it does not raise and the values are no NaN. *)
Theorem likely_voter_polling_average_no_lv sum s :
  Spec.lv_rows (data_dict s) = [] ->
  likely_voter_polling_average sum s = (s, Ok (Py.zero, Py.zero)).
Proof.
  intros H. rewrite likely_voter_polling_average_run.
  unfold Spec.lv_harris, Spec.lv_trump. now rewrite H.
Qed.

Lemma likely_voter_polling_average_no_lv_witness :
  let s := fst (build_data_dict (init file_without_lv)) in
  Spec.lv_rows (data_dict s) = [] /\
  likely_voter_polling_average Py.sum_compensated s = (s, Ok (Py.zero, Py.zero)).
Proof.
  cbv zeta.
  assert (H : Spec.lv_rows (data_dict (fst (build_data_dict (init file_without_lv)))) = [])
    by (vm_compute; reflexivity).
  split; [exact H|].
  exact (likely_voter_polling_average_no_lv Py.sum_compensated _ H).
Defined.

(** ** C7 *)

(** C7, as stated, fails: a wrong number of comma fields is not always
    refused.  A line with a sixth field is parsed as if the extra field
    were not there. *)
Lemma extra_field_is_accepted :
  List.length (Spec.fields ("October,15,1500 LV,0.50,0.53,extra" ++ nl)%string) = 6%nat /\
  exists s,
    build_data_dict (init file_with_extra_field) = (s, Ok tt) /\
    Spec.all_length (data_dict s) 1.
Proof.
  split; [vm_compute; reflexivity|].
  eexists. split; [vm_compute; reflexivity|].
  vm_compute. repeat split.
Qed.

(** C7, amended.  When the data lines include a line with fewer than
    five comma fields, a date or a sample size that is no integer, a
    packed sample field that is not exactly two tokens, or a result that
    is no number, [build_data_dict] raises at the first such line and
    processes nothing after it.  The exception is the [IndexError] or
    [ValueError] that the line raises by itself, whatever its position:
    it carries no line number.  (More than five fields is not an
    error.) *)
Theorem build_data_dict_fails_on_malformed raw pre bad post :
  tl raw = pre ++ bad :: post ->
  forallb (fun l => negb (Spec.malformed l)) pre = true ->
  Spec.malformed bad = true ->
  exists s e,
    build_data_dict (init raw) = (s, Raise e) /\
    parse_line bad = Raise e /\
    (e = IndexError \/ exists w, e = ValueError w) /\
    Spec.all_length (data_dict s) (List.length pre).
Proof.
  intros Hraw Hpre Hbad.
  assert (Hok : forallb (fun l => is_ok (parse_line l)) pre = true).
  { rewrite forallb_forall in *. intros l Hl.
    rewrite parse_line_malformed. auto. }
  destruct (all_ok_rows _ Hok) as [rows Hrows].
  destruct (parse_line bad) as [r|e] eqn:E.
  { pose proof (parse_line_malformed bad) as P.
    rewrite E, Hbad in P. discriminate. }
  exists (with_columns (init raw) (Spec.extend empty_columns rows)), e.
  split; [|split; [reflexivity|split]].
  - rewrite build_data_dict_unfold. cbn [init raw_data]. rewrite Hraw.
    exact (for_each_first_bad pre bad post rows e (init raw) Hrows E).
  - exact (parse_line_exn _ _ E).
  - cbn [with_columns data_dict]. rewrite <- (map_ok_length _ _ _ Hrows).
    apply extend_all_length.
Qed.

Lemma build_data_dict_fails_on_malformed_witness :
  exists s e,
    build_data_dict (init file_with_bad_second_line) = (s, Raise e) /\
    parse_line ("October,xx,1200 RV,0.57,0.48" ++ nl)%string = Raise e /\
    (e = IndexError \/ exists w, e = ValueError w) /\
    Spec.all_length (data_dict s) 1.
Proof.
  apply (build_data_dict_fails_on_malformed file_with_bad_second_line
           ["October,15,1500 LV,0.50,0.53" ++ nl]%string
           ("October,xx,1200 RV,0.57,0.48" ++ nl)%string []);
    vm_compute; reflexivity.
Defined.

(** ** C8 *)

(** C8, as stated, fails: a parse that fails partway leaves the rows it
    had appended.  After the failure on the second data line the
    columns are not what they were before the call. *)
Lemma failed_parse_leaves_rows :
  exists s e,
    build_data_dict (init file_with_bad_second_line) = (s, Raise e) /\
    data_dict s <> data_dict (init file_with_bad_second_line) /\
    List.length (month (data_dict s)) = 1%nat.
Proof.
  eexists. eexists. split; [vm_compute; reflexivity|].
  split; [vm_compute; discriminate | vm_compute; reflexivity].
Qed.

(** C8, amended.  When [build_data_dict] fails at a malformed line, the
    six columns hold what they held before the call followed by the rows
    of the data lines that precede that line, whole rows only; they are
    in the state they were in before the call exactly when the first
    data line is the malformed one. *)
Theorem build_data_dict_keeps_parsed_prefix s0 pre bad post rows e :
  tl (raw_data s0) = pre ++ bad :: post ->
  map parse_line pre = map Ok rows ->
  parse_line bad = Raise e ->
  exists s,
    build_data_dict s0 = (s, Raise e) /\
    raw_data s = raw_data s0 /\
    data_dict s = Spec.extend (data_dict s0) rows /\
    (pre = [] <-> s = s0).
Proof.
  intros Hraw Hpre Hbad.
  exists (with_columns s0 (Spec.extend (data_dict s0) rows)).
  split; [|split; [reflexivity|split; [reflexivity|split]]].
  - rewrite build_data_dict_unfold, Hraw.
    apply (for_each_first_bad _ _ _ _ _ _ Hpre Hbad).
  - intros ->. destruct rows; [|discriminate].
    now rewrite extend_nil, with_columns_same.
  - intros E. apply (f_equal (fun x => List.length (month (data_dict x)))) in E.
    cbn [with_columns data_dict Spec.extend month] in E.
    rewrite length_app, length_map, (map_ok_length _ _ _ Hpre) in E.
    destruct pre; [reflexivity|]. cbn [List.length] in E. lia.
Qed.

Lemma build_data_dict_keeps_parsed_prefix_witness :
  exists rows s,
    map parse_line ["October,15,1500 LV,0.50,0.53" ++ nl]%string = map Ok rows /\
    build_data_dict (init file_with_bad_second_line)
      = (s, Raise (ValueError (InvalidIntLiteral "xx"))) /\
    raw_data s = file_with_bad_second_line /\
    data_dict s = Spec.extend empty_columns rows.
Proof.
  eexists.
  assert (Hpre : map parse_line ["October,15,1500 LV,0.50,0.53" ++ nl]%string
                 = map Ok [ {| row_month := "October"; row_date := 15;
                               row_sample := 1500; row_sample_type := "LV";
                               row_harris := S754_finite false 4503599627370496 (-53);
                               row_trump := S754_finite false 4773815605012726 (-53) |} ])
    by (vm_compute; reflexivity).
  assert (Hbad : parse_line ("October,xx,1200 RV,0.57,0.48" ++ nl)%string
                 = Raise (ValueError (InvalidIntLiteral "xx")))
    by (vm_compute; reflexivity).
  destruct (build_data_dict_keeps_parsed_prefix
              (init file_with_bad_second_line)
              ["October,15,1500 LV,0.50,0.53" ++ nl]%string
              ("October,xx,1200 RV,0.57,0.48" ++ nl)%string [] _ _
              eq_refl Hpre Hbad)
    as (s & H1 & H2 & H3 & _).
  exists s. split; [exact Hpre|]. split; [exact H1|]. split; [exact H2|exact H3].
Defined.

(** ** C9 *)

(** C9.  Each of the three queries leaves the object, and so all six
    columns, exactly as it found it, whether it returns or raises. *)
Theorem queries_do_not_mutate sum :
  Exec.read_only highest_polling_candidate /\
  Exec.read_only (likely_voter_polling_average sum) /\
  Exec.read_only (polling_history_change sum).
Proof.
  split; [|split].
  - apply highest_polling_candidate_read_only.
  - apply likely_voter_polling_average_read_only.
  - apply polling_history_change_read_only.
Qed.

(** ** C10 *)

(** C10.  On the table with no rows, [polling_history_change] does not
    raise and returns exactly (0.0, 0.0), each empty slice averaging to
    0.0, whereas [highest_polling_candidate] raises there. *)
Theorem polling_history_change_empty sum s :
  Harris_result (data_dict s) = [] ->
  Trump_result (data_dict s) = [] ->
  polling_history_change sum s = (s, Ok (Py.zero, Py.zero)) /\
  highest_polling_candidate s = (s, Raise (ValueError EmptyMax)).
Proof.
  intros Hh Ht. split.
  - rewrite polling_history_change_run, Hh, Ht. reflexivity.
  - unfold highest_polling_candidate, Exec.bind, Exec.gets, Exec.lift.
    now rewrite Hh.
Qed.

Lemma polling_history_change_empty_witness :
  polling_history_change Py.sum_left (init [header])
    = (init [header], Ok (Py.zero, Py.zero)) /\
  highest_polling_candidate (init [header])
    = (init [header], Raise (ValueError EmptyMax)).
Proof.
  apply (polling_history_change_empty Py.sum_left (init [header]));
    reflexivity.
Defined.

(** * Further properties of the code *)

(** ** [build_data_dict]: the state it leaves *)

Lemma extend_extend d r1 r2 :
  Spec.extend (Spec.extend d r1) r2 = Spec.extend d (r1 ++ r2).
Proof.
  unfold Spec.extend; cbn. now rewrite !map_app, <- !app_assoc.
Qed.

Lemma extend_all_length_from d n rows :
  Spec.all_length d n ->
  Spec.all_length (Spec.extend d rows) (n + List.length rows).
Proof.
  unfold Spec.all_length, Spec.extend; cbn.
  intros (H1 & H2 & H3 & H4 & H5 & H6).
  rewrite !length_app, !length_map. repeat split; congruence.
Qed.

(** Whatever the lines, the loop ends in the state reached by
    appending the rows of the lines before the first one that fails. *)
Lemma build_data_dict_state s :
  exists rows,
    fst (build_data_dict s) = with_columns s (Spec.extend (data_dict s) rows) /\
    (List.length rows <= List.length (tl (raw_data s)))%nat /\
    (snd (build_data_dict s) = Ok tt ->
     map parse_line (tl (raw_data s)) = map Ok rows).
Proof.
  rewrite build_data_dict_unfold.
  destruct (lines_split (tl (raw_data s)))
    as [[rows Hr]|(pre & bad & post & rows & e & Hl & Hp & Hb)].
  - exists rows. rewrite (for_each_all_ok _ _ _ Hr). cbn [fst snd].
    split; [reflexivity|]. split; [|auto].
    rewrite (map_ok_length _ _ _ Hr). lia.
  - exists rows. rewrite Hl, (for_each_first_bad _ _ _ _ _ _ Hp Hb).
    cbn [fst snd]. split; [reflexivity|]. split; [|discriminate].
    rewrite (map_ok_length _ _ _ Hp), length_app. lia.
Qed.

(** X1.  [build_data_dict] keeps the six columns aligned, whether it
    returns or raises: columns of common length [n] end with a common
    length [n + k], where [k] is at most the number of data lines and is
    that number when the call succeeds; [raw_data] is not touched. *)
Theorem build_data_dict_keeps_columns_aligned s n :
  Spec.all_length (data_dict s) n ->
  exists k,
    (k <= List.length (tl (raw_data s)))%nat /\
    Spec.all_length (data_dict (fst (build_data_dict s))) (n + k) /\
    raw_data (fst (build_data_dict s)) = raw_data s /\
    (snd (build_data_dict s) = Ok tt -> k = List.length (tl (raw_data s))).
Proof.
  intros Hn. destruct (build_data_dict_state s) as (rows & Hs & Hle & Hok).
  exists (List.length rows). rewrite Hs. cbn [with_columns data_dict raw_data].
  split; [exact Hle|]. split; [now apply extend_all_length_from|].
  split; [reflexivity|].
  intros H. apply (map_ok_length _ _ _ (Hok H)).
Qed.

Lemma build_data_dict_keeps_columns_aligned_witness :
  let s := fst (build_data_dict (init file_with_bad_second_line)) in
  Spec.all_length (data_dict s) 1 /\
  exists k,
    (k <= List.length (tl (raw_data s)))%nat /\
    Spec.all_length (data_dict (fst (build_data_dict s))) (1 + k) /\
    raw_data (fst (build_data_dict s)) = raw_data s /\
    (snd (build_data_dict s) = Ok tt -> k = List.length (tl (raw_data s))).
Proof.
  cbv zeta.
  assert (H : Spec.all_length
                (data_dict (fst (build_data_dict (init file_with_bad_second_line)))) 1)
    by (vm_compute; repeat split).
  split; [exact H|].
  exact (build_data_dict_keeps_columns_aligned _ 1%nat H).
Defined.

(** X2.  Calling [build_data_dict] twice on a file whose data lines all
    parse succeeds and stores every row twice: the rows of the file
    followed by the same rows again. *)
Theorem build_data_dict_twice_duplicates raw rows :
  map parse_line (tl raw) = map Ok rows ->
  build_data_dict_twice (init raw) =
  (with_columns (init raw) (Spec.extend empty_columns (rows ++ rows)), Ok tt).
Proof.
  intros H. unfold build_data_dict_twice, Exec.bind.
  rewrite !build_data_dict_unfold. cbn [init raw_data].
  rewrite (for_each_all_ok _ _ (init raw) H).
  rewrite build_data_dict_unfold. cbn [with_columns raw_data init].
  rewrite (for_each_all_ok _ _ _ H).
  cbn [with_columns raw_data data_dict init]. now rewrite extend_extend.
Qed.

Lemma build_data_dict_twice_duplicates_witness :
  exists rows,
    map parse_line (tl file_with_percentages) = map Ok rows /\
    build_data_dict_twice (init file_with_percentages) =
    (with_columns (init file_with_percentages)
       (Spec.extend empty_columns (rows ++ rows)), Ok tt).
Proof.
  eexists.
  assert (H : map parse_line (tl file_with_percentages)
              = map Ok [ {| row_month := "October"; row_date := 15;
                            row_sample := 1500; row_sample_type := "LV";
                            row_harris := S754_finite false 8022036836253696 (-47);
                            row_trump := S754_finite false 7487234380503450 (-47) |} ])
    by (vm_compute; reflexivity).
  split; [exact H|].
  exact (build_data_dict_twice_duplicates file_with_percentages _ H).
Defined.

(** X3.  With no data line (an empty file, or a header alone),
    [build_data_dict] succeeds and changes nothing: the missing header of
    an empty file is no error. *)
Theorem build_data_dict_no_data_lines s :
  (List.length (raw_data s) <= 1)%nat ->
  build_data_dict s = (s, Ok tt).
Proof.
  intros H. rewrite build_data_dict_unfold.
  destruct (raw_data s) as [|h [|l ls]]; cbn [tl Exec.for_each];
    try reflexivity.
  cbn [List.length] in H. lia.
Qed.

Lemma build_data_dict_no_data_lines_witness :
  (List.length (raw_data (init [])) <= 1)%nat /\
  build_data_dict (init []) = (init [], Ok tt).
Proof.
  assert (H : (List.length (raw_data (init [])) <= 1)%nat) by (cbn; lia).
  split; [exact H|]. exact (build_data_dict_no_data_lines (init []) H).
Defined.

(** ** [build_data_dict]: what each column holds *)

Lemma parse_line_columns l r :
  parse_line l = Ok r ->
  Fields.month_of l = Ok (row_month r) /\
  Fields.date_of l = Ok (row_date r) /\
  Fields.sample_of l = Ok (row_sample r) /\
  Fields.sample_type_of l = Ok (row_sample_type r).
Proof.
  unfold parse_line, Fields.month_of, Fields.date_of, Fields.sample_of,
    Fields.sample_type_of, Fields.sample_tokens, Spec.fields.
  set (parts := Py.split "," (Py.strip l)).
  destruct (Py.index parts 0); cbn [rbind]; [|discriminate].
  destruct (Py.index parts 1); cbn [rbind]; [|discriminate].
  destruct (Py.int _); cbn [rbind]; [|discriminate].
  destruct (Py.index parts 2); cbn [rbind]; [|discriminate].
  destruct (Py.unpack2 _) as [[x y]|]; cbn [rbind fst snd]; [|discriminate].
  destruct (Py.int x); cbn [rbind]; [|discriminate].
  destruct (Py.index parts 3); cbn [rbind]; [|discriminate].
  destruct (Py.float_of_str _); cbn [rbind]; [|discriminate].
  destruct (Py.index parts 4); cbn [rbind]; [|discriminate].
  destruct (Py.float_of_str _); cbn [rbind]; [|discriminate].
  intros [= <-]. cbn. auto.
Qed.

(** X4.  After a successful parse the month, date, sample and sample
    type columns hold, row by row and in file order, what the first three
    comma fields of each data line give: the first field as it is, [int]
    of the second, and the two white-space separated tokens of the third
    ([int] of the first token, the second token as it is). *)
Theorem columns_stored_as_written raw s :
  build_data_dict (init raw) = (s, Ok tt) ->
  map Ok (month (data_dict s)) = map Fields.month_of (tl raw) /\
  map Ok (date (data_dict s)) = map Fields.date_of (tl raw) /\
  map Ok (sample (data_dict s)) = map Fields.sample_of (tl raw) /\
  map Ok (sample_type (data_dict s)) = map Fields.sample_type_of (tl raw).
Proof.
  intros H. apply build_data_dict_ok_inv in H as (rows & Hrows & ->).
  cbn [init raw_data data_dict with_columns Spec.extend empty_columns
       month date sample sample_type app] in *.
  revert rows Hrows. induction (tl raw) as [|l ls IH]; intros rows Hrows.
  - destruct rows; [now cbn|discriminate].
  - destruct rows as [|r rows]; [discriminate|].
    cbn [map] in Hrows. injection Hrows as Hl Hls.
    destruct (parse_line_columns l r Hl) as (E1 & E2 & E3 & E4).
    destruct (IH rows Hls) as (I1 & I2 & I3 & I4).
    cbn [map]. now rewrite E1, E2, E3, E4, I1, I2, I3, I4.
Qed.

Lemma columns_stored_as_written_witness :
  let s := fst (build_data_dict (init three_good_lines)) in
  build_data_dict (init three_good_lines) = (s, Ok tt) /\
  map Ok (month (data_dict s)) = map Fields.month_of (tl three_good_lines) /\
  map Ok (date (data_dict s)) = map Fields.date_of (tl three_good_lines) /\
  map Ok (sample (data_dict s)) = map Fields.sample_of (tl three_good_lines) /\
  map Ok (sample_type (data_dict s))
    = map Fields.sample_type_of (tl three_good_lines).
Proof.
  cbv zeta.
  assert (H : build_data_dict (init three_good_lines)
              = (fst (build_data_dict (init three_good_lines)), Ok tt))
    by (vm_compute; reflexivity).
  split; [exact H|].
  exact (columns_stored_as_written three_good_lines _ H).
Defined.

(** Every piece [str.split()] gives is a non-empty run without white
    space. *)
Lemma split_ws_pieces s : forall w,
  In w (Py.split_ws s) -> w <> EmptyString /\ Fields.no_space w = true.
Proof.
  induction s as [|c r IH]; intros w Hw; [contradiction|].
  cbn [Py.split_ws] in Hw.
  destruct (Py.isspace c) eqn:Ec; [auto|].
  assert (Hc : forall v, Fields.no_space v = true ->
                         Fields.no_space (String c v) = true).
  { intros v Hv. unfold Fields.no_space in *. cbn [list_ascii_of_string forallb].
    now rewrite Ec, Hv. }
  destruct r as [|c' r'].
  - destruct Hw as [<-|[]]. split; [discriminate|]. now apply Hc.
  - destruct (Py.isspace c') eqn:Ec'.
    + destruct Hw as [<-|Hw]; [|auto]. split; [discriminate|]. now apply Hc.
    + destruct (Py.split_ws (String c' r')) as [|v vs].
      * destruct Hw as [<-|[]]. split; [discriminate|]. now apply Hc.
      * destruct Hw as [<-|Hw].
        -- split; [discriminate|]. apply Hc. apply IH. now left.
        -- apply IH. now right.
Qed.

Lemma parse_line_sample_type l r :
  parse_line l = Ok r ->
  row_sample_type r <> EmptyString /\ Fields.no_space (row_sample_type r) = true.
Proof.
  intros H. apply parse_line_columns in H as (_ & _ & _ & H).
  unfold Fields.sample_type_of, Fields.sample_tokens in H.
  destruct (Py.index (Spec.fields l) 2) as [p|]; cbn [rbind] in H; [|discriminate].
  pose proof (split_ws_pieces (Py.strip p)) as Hp.
  destruct (Py.split_ws (Py.strip p)) as [|a [|b [|c t]]];
    cbn [Py.unpack2 rbind snd] in H; try discriminate.
  injection H as <-. apply Hp. right. now left.
Qed.

(** X5.  After a successful parse no stored sample type is empty or
    contains white space. *)
Theorem sample_types_have_no_space raw s st :
  build_data_dict (init raw) = (s, Ok tt) ->
  In st (sample_type (data_dict s)) ->
  st <> EmptyString /\ Fields.no_space st = true.
Proof.
  intros H Hin. apply build_data_dict_ok_inv in H as (rows & Hrows & ->).
  cbn [init raw_data data_dict with_columns Spec.extend empty_columns
       sample_type app] in *.
  apply in_map_iff in Hin as (r & <- & Hr).
  revert rows Hrows Hr. induction (tl raw) as [|l ls IH]; intros rows Hrows Hr.
  - destruct rows; [contradiction|discriminate].
  - destruct rows as [|r0 rows]; [contradiction|].
    cbn [map] in Hrows. injection Hrows as Hl Hls.
    destruct Hr as [->|Hr].
    + exact (parse_line_sample_type l r Hl).
    + exact (IH rows Hls Hr).
Qed.

Lemma sample_types_have_no_space_witness :
  let s := fst (build_data_dict (init three_good_lines)) in
  build_data_dict (init three_good_lines) = (s, Ok tt) /\
  In "LV"%string (sample_type (data_dict s)) /\
  "LV"%string <> EmptyString /\ Fields.no_space "LV" = true.
Proof.
  cbv zeta.
  assert (H : build_data_dict (init three_good_lines)
              = (fst (build_data_dict (init three_good_lines)), Ok tt))
    by (vm_compute; reflexivity).
  assert (Hin : In "LV"%string
                  (sample_type (data_dict (fst (build_data_dict (init three_good_lines))))))
    by (vm_compute; left; reflexivity).
  split; [exact H|]. split; [exact Hin|].
  exact (sample_types_have_no_space three_good_lines _ "LV"%string H Hin).
Defined.

(** ** [parse_line]: what it does not look at *)

Lemma lstrip_all_space a : forall l,
  Fields.all_space a = true ->
  Py.lstrip_by Py.isspace (a ++ l)%string = Py.lstrip_by Py.isspace l.
Proof.
  induction a as [|c a IH]; intros l H; [reflexivity|].
  unfold Fields.all_space in H. cbn [list_ascii_of_string forallb] in H.
  apply andb_prop in H as [Hc Ha].
  cbn [String.append Py.lstrip_by]. rewrite Hc. now apply IH.
Qed.

Lemma lstrip_space_only b :
  Fields.all_space b = true -> Py.lstrip_by Py.isspace b = EmptyString.
Proof.
  induction b as [|c b IH]; intros H; [reflexivity|].
  unfold Fields.all_space in H. cbn [list_ascii_of_string forallb] in H.
  apply andb_prop in H as [Hc Hb].
  cbn [Py.lstrip_by]. rewrite Hc. now apply IH.
Qed.

Lemma rstrip_all_space b :
  Fields.all_space b = true -> Py.rstrip_by Py.isspace b = EmptyString.
Proof.
  induction b as [|c b IH]; intros H; [reflexivity|].
  unfold Fields.all_space in H. cbn [list_ascii_of_string forallb] in H.
  apply andb_prop in H as [Hc Hb].
  cbn [Py.rstrip_by]. rewrite (IH Hb). now rewrite Hc.
Qed.

Lemma rstrip_app_space l b :
  Fields.all_space b = true ->
  Py.rstrip_by Py.isspace (l ++ b)%string = Py.rstrip_by Py.isspace l.
Proof.
  intros Hb. induction l as [|c l IH].
  - cbn [String.append]. now rewrite rstrip_all_space.
  - cbn [String.append Py.rstrip_by]. now rewrite IH.
Qed.

Lemma lstrip_app_space l b :
  Fields.all_space b = true ->
  Py.lstrip_by Py.isspace (l ++ b)%string =
  match Py.lstrip_by Py.isspace l with
  | EmptyString => EmptyString
  | t => (t ++ b)%string
  end.
Proof.
  intros Hb. induction l as [|c l IH].
  - cbn [String.append Py.lstrip_by]. now apply lstrip_space_only.
  - cbn [String.append Py.lstrip_by]. destruct (Py.isspace c); [exact IH|].
    reflexivity.
Qed.

Lemma strip_surrounding_space a l b :
  Fields.all_space a = true -> Fields.all_space b = true ->
  Py.strip (a ++ l ++ b)%string = Py.strip l.
Proof.
  intros Ha Hb. unfold Py.strip, Py.strip_by.
  rewrite (lstrip_all_space a _ Ha), (lstrip_app_space l b Hb).
  destruct (Py.lstrip_by Py.isspace l) as [|c t]; [reflexivity|].
  now apply rstrip_app_space.
Qed.

(** X6.  White space before and after a line, its line end included,
    does not change what the line parses to. *)
Theorem parse_line_ignores_surrounding_space a l b :
  Fields.all_space a = true -> Fields.all_space b = true ->
  parse_line (a ++ l ++ b)%string = parse_line l.
Proof.
  intros Ha Hb. unfold parse_line.
  now rewrite (strip_surrounding_space a l b Ha Hb).
Qed.

Lemma parse_line_ignores_surrounding_space_witness :
  Fields.all_space "  " = true /\ Fields.all_space nl = true /\
  parse_line ("  " ++ "October,15,1500 LV,0.50,0.53" ++ nl)%string
  = parse_line "October,15,1500 LV,0.50,0.53".
Proof.
  assert (Ha : Fields.all_space "  " = true) by reflexivity.
  assert (Hb : Fields.all_space nl = true) by reflexivity.
  split; [exact Ha|]. split; [exact Hb|].
  exact (parse_line_ignores_surrounding_space "  "
           "October,15,1500 LV,0.50,0.53" nl Ha Hb).
Defined.

Lemma index_firstn {A} (parts : list A) k n :
  (k < n)%nat -> Py.index (firstn n parts) k = Py.index parts k.
Proof.
  intros H. unfold Py.index. rewrite nth_error_firstn.
  now replace (k <? n)%nat with true by (symmetry; now apply Nat.ltb_lt).
Qed.

(** X7.  A line is parsed from its first five comma fields alone: two
    lines that agree on them parse to the same row or raise the same
    exception, whatever follows. *)
Theorem parse_line_reads_five_fields l l' :
  firstn 5 (Spec.fields l) = firstn 5 (Spec.fields l') ->
  parse_line l = parse_line l'.
Proof.
  unfold Spec.fields, parse_line. intros H.
  rewrite <- !(index_firstn (Py.split "," (Py.strip l)) _ 5) by lia.
  rewrite <- !(index_firstn (Py.split "," (Py.strip l')) _ 5) by lia.
  now rewrite H.
Qed.

Lemma parse_line_reads_five_fields_witness :
  firstn 5 (Spec.fields "October,15,1500 LV,0.50,0.53,extra,more")
    = firstn 5 (Spec.fields "October,15,1500 LV,0.50,0.53") /\
  parse_line "October,15,1500 LV,0.50,0.53,extra,more"
    = parse_line "October,15,1500 LV,0.50,0.53".
Proof.
  assert (H : firstn 5 (Spec.fields "October,15,1500 LV,0.50,0.53,extra,more")
              = firstn 5 (Spec.fields "October,15,1500 LV,0.50,0.53"))
    by reflexivity.
  split; [exact H|]. exact (parse_line_reads_five_fields _ _ H).
Defined.

(** ** [highest_polling_candidate]: when it raises, what it reports *)

Lemma max_from_in l : forall best, In (Py.max_from best l) (best :: l).
Proof.
  induction l as [|x r IH]; intros best; [now left|].
  cbn [Py.max_from].
  destruct (IH (if Py.fgt x best then x else best)) as [H|H].
  - rewrite <- H. destruct (Py.fgt x best); [right; now left | now left].
  - right. now right.
Qed.

Lemma max_in l m : Py.max l = Ok m -> In m l.
Proof.
  destruct l as [|x r]; [discriminate|]. intros [= <-]. apply max_from_in.
Qed.

Lemma max_nonempty l : l <> [] -> exists m, Py.max l = Ok m.
Proof. destruct l; [contradiction|]. intros _. cbn. eauto. Qed.

(** X8.  [highest_polling_candidate] raises exactly when one of the two
    result columns is empty, with the [ValueError] of [max] and without
    changing the table; otherwise it returns a string. *)
Theorem highest_polling_candidate_raises_iff_empty s :
  (Harris_result (data_dict s) = [] \/ Trump_result (data_dict s) = [] ->
   highest_polling_candidate s = (s, Raise (ValueError EmptyMax))) /\
  (Harris_result (data_dict s) <> [] /\ Trump_result (data_dict s) <> [] ->
   exists out, highest_polling_candidate s = (s, Ok out)).
Proof.
  unfold highest_polling_candidate, Exec.bind, Exec.gets, Exec.lift, Exec.ret.
  split.
  - intros [H|H].
    + now rewrite H.
    + rewrite H. destruct (Py.max (Harris_result (data_dict s))) as [m|e] eqn:E.
      * reflexivity.
      * destruct (Harris_result (data_dict s)); [|discriminate].
        now injection E as <-.
  - intros [Hh Ht].
    destruct (max_nonempty _ Hh) as [mh ->].
    destruct (max_nonempty _ Ht) as [mt ->].
    destruct (Py.flt _ _); [eauto|]. destruct (Py.fgt _ _); eauto.
Qed.

(** X9.  What [highest_polling_candidate] returns is always a name
    ("EVEN", "Harris" or "Trump"), a space and the percentage of a value
    that occurs in the table: in the Harris column for "EVEN" and
    "Harris", in the Trump column for "Trump". *)
Theorem highest_polling_candidate_reports_table_value s out :
  snd (highest_polling_candidate s) = Ok out ->
  exists name x,
    out = (name ++ " " ++ percent_1f x)%string /\
    (((name = "EVEN" \/ name = "Harris")%string /\
      In x (Harris_result (data_dict s))) \/
     (name = "Trump"%string /\ In x (Trump_result (data_dict s)))).
Proof.
  unfold highest_polling_candidate, Exec.bind, Exec.gets, Exec.lift, Exec.ret.
  destruct (Py.max (Harris_result (data_dict s))) as [mh|] eqn:Eh;
    [|discriminate].
  destruct (Py.max (Trump_result (data_dict s))) as [mt|] eqn:Et;
    [|discriminate].
  apply max_in in Eh, Et.
  destruct (Py.flt _ _); [|destruct (Py.fgt _ _)]; cbn [snd]; intros [= <-].
  - exists "EVEN"%string, mh. split; [reflexivity|]. left. auto.
  - exists "Harris"%string, mh. split; [reflexivity|]. left. auto.
  - exists "Trump"%string, mt. split; [reflexivity|]. right. auto.
Qed.

Lemma highest_polling_candidate_reports_table_value_witness :
  let s := fst (build_data_dict (init three_good_lines)) in
  snd (highest_polling_candidate s) = Ok "Harris 57.0%"%string /\
  exists name x,
    "Harris 57.0%"%string = (name ++ " " ++ percent_1f x)%string /\
    (((name = "EVEN" \/ name = "Harris")%string /\
      In x (Harris_result (data_dict s))) \/
     (name = "Trump"%string /\ In x (Trump_result (data_dict s)))).
Proof.
  cbv zeta.
  assert (H : snd (highest_polling_candidate
                     (fst (build_data_dict (init three_good_lines))))
              = Ok "Harris 57.0%"%string) by (vm_compute; reflexivity).
  split; [exact H|].
  exact (highest_polling_candidate_reports_table_value _ _ H).
Defined.

(** ** [polling_history_change]: short tables, long tables *)

Lemma fsub_self x :
  Py.fsub x x = if Py.is_finite x then Py.zero else S754_nan.
Proof.
  destruct x as [s|s| |s m e]; cbn.
  - now destruct s.
  - now destruct s.
  - reflexivity.
  - unfold Py.fsub, SFsub. rewrite Z.sub_diag. reflexivity.
Qed.

Lemma latest_short l : (List.length l <= 30)%nat -> Spec.latest l = l.
Proof.
  intros H. unfold Spec.latest.
  now replace (List.length l <=? 30)%nat with true
    by (symmetry; now apply Nat.leb_le).
Qed.

Lemma earliest_short l : (List.length l <= 30)%nat -> Spec.earliest l = l.
Proof.
  intros H. unfold Spec.earliest.
  now replace (List.length l <=? 30)%nat with true
    by (symmetry; now apply Nat.leb_le).
Qed.

(** X10.  On a table of at most 30 rows [polling_history_change]
    subtracts each average from itself: a change is 0.0 when the average
    of its column is finite, and NaN when that average is infinite or
    NaN. *)
Theorem polling_history_change_short_table sum s :
  (List.length (Harris_result (data_dict s)) <= 30)%nat ->
  (List.length (Trump_result (data_dict s)) <= 30)%nat ->
  let harris_avg := Spec.mean_or_zero sum (Harris_result (data_dict s)) in
  let trump_avg := Spec.mean_or_zero sum (Trump_result (data_dict s)) in
  polling_history_change sum s =
  (s, Ok (if Py.is_finite harris_avg then Py.zero else S754_nan,
          if Py.is_finite trump_avg then Py.zero else S754_nan)).
Proof.
  intros Hh Ht. cbv zeta. rewrite polling_history_change_run.
  rewrite !latest_short, !earliest_short by assumption.
  now rewrite !fsub_self.
Qed.

Lemma polling_history_change_short_table_witness :
  let s := fst (build_data_dict (init three_good_lines)) in
  (List.length (Harris_result (data_dict s)) <= 30)%nat /\
  (List.length (Trump_result (data_dict s)) <= 30)%nat /\
  polling_history_change Py.sum_left s =
  (s, Ok (if Py.is_finite (Spec.mean_or_zero Py.sum_left (Harris_result (data_dict s)))
          then Py.zero else S754_nan,
          if Py.is_finite (Spec.mean_or_zero Py.sum_left (Trump_result (data_dict s)))
          then Py.zero else S754_nan)).
Proof.
  cbv zeta.
  assert (Hh : (List.length (Harris_result (data_dict
                  (fst (build_data_dict (init three_good_lines))))) <= 30)%nat)
    by (vm_compute; lia).
  assert (Ht : (List.length (Trump_result (data_dict
                  (fst (build_data_dict (init three_good_lines))))) <= 30)%nat)
    by (vm_compute; lia).
  split; [exact Hh|]. split; [exact Ht|].
  exact (polling_history_change_short_table Py.sum_left _ Hh Ht).
Defined.

Lemma latest_of_three (a mid b : list Py.float) :
  List.length a = 30%nat -> List.length b = 30%nat ->
  Spec.latest (a ++ mid ++ b) = a.
Proof.
  intros Ha Hb. unfold Spec.latest.
  replace (List.length (a ++ mid ++ b) <=? 30)%nat with false.
  - rewrite firstn_app, Ha, Nat.sub_diag, firstn_O, app_nil_r.
    apply firstn_all2. lia.
  - symmetry. apply Nat.leb_gt. rewrite !length_app. lia.
Qed.

Lemma earliest_of_three (a mid b : list Py.float) :
  List.length a = 30%nat -> List.length b = 30%nat ->
  Spec.earliest (a ++ mid ++ b) = b.
Proof.
  intros Ha Hb. unfold Spec.earliest.
  replace (List.length (a ++ mid ++ b) <=? 30)%nat with false.
  - rewrite !rev_app_distr, <- app_assoc, firstn_app.
    rewrite length_rev, Hb, Nat.sub_diag, firstn_O.
    rewrite app_nil_r, firstn_all2 by (rewrite length_rev; lia).
    apply rev_involutive.
  - symmetry. apply Nat.leb_gt. rewrite !length_app. lia.
Qed.

Lemma mean_or_zero_30 sum (l : list Py.float) :
  List.length l = 30%nat -> Spec.mean_or_zero sum l = Spec.mean sum l.
Proof. destruct l; [discriminate|reflexivity]. Qed.

(** X11.  On a table of at least 60 rows [polling_history_change]
    depends on the first 30 and the last 30 entries of each column only:
    it returns the mean of the first 30 minus the mean of the last 30,
    whatever lies in between. *)
Theorem polling_history_change_ignores_middle sum s a mid b a' mid' b' :
  Harris_result (data_dict s) = a ++ mid ++ b ->
  Trump_result (data_dict s) = a' ++ mid' ++ b' ->
  List.length a = 30%nat -> List.length b = 30%nat ->
  List.length a' = 30%nat -> List.length b' = 30%nat ->
  polling_history_change sum s =
  (s, Ok (Py.fsub (Spec.mean sum a) (Spec.mean sum b),
          Py.fsub (Spec.mean sum a') (Spec.mean sum b'))).
Proof.
  intros Eh Et Ha Hb Ha' Hb'. rewrite polling_history_change_run, Eh, Et.
  rewrite !latest_of_three, !earliest_of_three by assumption.
  now rewrite !mean_or_zero_30 by assumption.
Qed.

Lemma polling_history_change_ignores_middle_witness :
  let s := table_of_results (repeat f055 30 ++ [f050; f055] ++ repeat f050 30)
                            (repeat f050 30 ++ [] ++ repeat f055 30) in
  polling_history_change Py.sum_left s =
  (s, Ok (Py.fsub (Spec.mean Py.sum_left (repeat f055 30))
                  (Spec.mean Py.sum_left (repeat f050 30)),
          Py.fsub (Spec.mean Py.sum_left (repeat f050 30))
                  (Spec.mean Py.sum_left (repeat f055 30)))).
Proof.
  cbv zeta.
  exact (polling_history_change_ignores_middle Py.sum_left
           (table_of_results (repeat f055 30 ++ [f050; f055] ++ repeat f050 30)
                             (repeat f050 30 ++ [] ++ repeat f055 30))
           (repeat f055 30) [f050; f055] (repeat f050 30)
           (repeat f050 30) [] (repeat f055 30)
           eq_refl eq_refl eq_refl eq_refl eq_refl eq_refl).
Defined.

(** ** [likely_voter_polling_average]: one more row *)

Lemma zip3_snoc {A B C} (a : list A) (b : list B) (c : list C) x y z :
  List.length a = List.length b -> List.length b = List.length c ->
  zip3 (a ++ [x]) (b ++ [y]) (c ++ [z]) = zip3 a b c ++ [(x, y, z)].
Proof.
  revert b c. induction a as [|a0 a IH]; intros [|b0 b] [|c0 c] Hab Hbc;
    try discriminate; [reflexivity|].
  cbn [List.length] in Hab, Hbc. injection Hab as Hab. injection Hbc as Hbc.
  unfold zip3 in *. cbn [app combine]. now rewrite (IH b c Hab Hbc).
Qed.

Lemma lv_columns_zip d :
  Spec.lv_harris d =
    map (fun x => snd (fst x))
        (filter is_lv (zip3 (sample_type d) (Harris_result d) (Trump_result d))) /\
  Spec.lv_trump d =
    map snd (filter is_lv (zip3 (sample_type d) (Harris_result d) (Trump_result d))).
Proof.
  destruct (lv_zip (sample_type d) (Harris_result d) (Trump_result d)) as [Hh Ht].
  cbn zeta in Hh, Ht. unfold Spec.lv_harris, Spec.lv_trump, Spec.lv_rows.
  now rewrite Hh, Ht.
Qed.

(** X12.  On a table whose sample type, Harris and Trump columns have
    the same length, one more row changes [likely_voter_polling_average]
    only when its sample type is exactly "LV": then its two results join
    the ends of the averaged lists, otherwise the lists are the same. *)
Theorem likely_voter_polling_average_after_append sum s r :
  List.length (sample_type (data_dict s)) = List.length (Harris_result (data_dict s)) ->
  List.length (Harris_result (data_dict s)) = List.length (Trump_result (data_dict s)) ->
  let s' := with_columns s (add_row (data_dict s) r) in
  let selected := (row_sample_type r =? "LV")%string in
  likely_voter_polling_average sum s' =
  (s', Ok (Spec.mean_or_zero sum
             (Spec.lv_harris (data_dict s) ++ if selected then [row_harris r] else []),
           Spec.mean_or_zero sum
             (Spec.lv_trump (data_dict s) ++ if selected then [row_trump r] else []))).
Proof.
  intros H1 H2. cbv zeta. rewrite likely_voter_polling_average_run.
  cbn [with_columns data_dict].
  destruct (lv_columns_zip (add_row (data_dict s) r)) as [-> ->].
  destruct (lv_columns_zip (data_dict s)) as [-> ->].
  unfold add_row, Spec.extend.
  cbn [sample_type Harris_result Trump_result map].
  rewrite (zip3_snoc _ _ _ _ _ _ H1 H2), filter_app, !map_app.
  cbn [filter]. change (is_lv (row_sample_type r, row_harris r, row_trump r))
    with (row_sample_type r =? "LV")%string.
  now destruct (row_sample_type r =? "LV")%string.
Qed.

Lemma likely_voter_polling_average_after_append_witness :
  let s := fst (build_data_dict (init three_good_lines)) in
  let r := {| row_month := "Sept"; row_date := 2; row_sample := 10;
              row_sample_type := "lv"; row_harris := f055; row_trump := f050 |} in
  let s' := with_columns s (add_row (data_dict s) r) in
  likely_voter_polling_average Py.sum_left s' =
  (s', Ok (Spec.mean_or_zero Py.sum_left (Spec.lv_harris (data_dict s) ++ []),
           Spec.mean_or_zero Py.sum_left (Spec.lv_trump (data_dict s) ++ []))).
Proof.
  cbv zeta.
  exact (likely_voter_polling_average_after_append Py.sum_left
           (fst (build_data_dict (init three_good_lines)))
           {| row_month := "Sept"; row_date := 2; row_sample := 10;
              row_sample_type := "lv"; row_harris := f055; row_trump := f050 |}
           eq_refl eq_refl).
Defined.

(** ** [main] *)

Lemma highest_polling_candidate_result s :
  (exists out, highest_polling_candidate s = (s, Ok out) /\
               Harris_result (data_dict s) <> [] /\
               Trump_result (data_dict s) <> []) \/
  (highest_polling_candidate s = (s, Raise (ValueError EmptyMax)) /\
   (Harris_result (data_dict s) = [] \/ Trump_result (data_dict s) = [])).
Proof.
  unfold highest_polling_candidate, Exec.bind, Exec.gets, Exec.lift, Exec.ret.
  destruct (Harris_result (data_dict s)) as [|h hs] eqn:Eh.
  - right. split; [reflexivity|now left].
  - destruct (Trump_result (data_dict s)) as [|t ts] eqn:Et.
    + right. split; [reflexivity|now right].
    + left. cbn [Py.max].
      destruct (Py.flt _ _); [|destruct (Py.fgt _ _)];
        eexists; (split; [reflexivity|split; discriminate]).
Qed.

(** What [main] prints and returns, by cases on the lines of the
    file. *)
Lemma main_cases sum lines :
  (exists out, main sum lines = (out, Ok tt) /\ List.length out = 7%nat /\
     nth 1 out EmptyString = "Likely Voter Polling Average:"%string /\
     nth 4 out EmptyString = "Polling History Change:"%string /\
     tl lines <> [] /\
     forallb (fun l => is_ok (parse_line l)) (tl lines) = true) \/
  (exists e, main sum lines = ([], Raise e) /\
     (tl lines = [] \/
      forallb (fun l => is_ok (parse_line l)) (tl lines) = false)).
Proof.
  assert (Hbuild : forall s r,
            build_data_dict (init lines) = (s, r) ->
            main sum lines =
            (let '(w, r') :=
               match r with
               | Ok _ =>
                   (highest_polling <- Prog.call highest_polling_candidate ;;
                    Prog.print ("Highest Polling Candidate: " ++ highest_polling) ;;;
                    '(harris_avg, trump_avg) <- Prog.call (likely_voter_polling_average sum) ;;
                    Prog.print "Likely Voter Polling Average:" ;;;
                    Prog.print ("  Harris: " ++ PyIO.format_percent false harris_avg) ;;;
                    Prog.print ("  Trump: " ++ PyIO.format_percent false trump_avg) ;;;
                    '(harris_change, trump_change) <- Prog.call (polling_history_change sum) ;;
                    Prog.print "Polling History Change:" ;;;
                    Prog.print ("  Harris: " ++ PyIO.format_percent true harris_change) ;;;
                    Prog.print ("  Trump: " ++ PyIO.format_percent true trump_change))%prog
                   {| Prog.obj := s; Prog.stdout := [] |}
               | Raise e => ({| Prog.obj := s; Prog.stdout := [] |}, Raise e)
               end in (Prog.stdout w, r'))).
  { intros s r H. unfold main, main_body. unfold Prog.bind at 1, Prog.call at 1.
    cbn [Prog.obj Prog.stdout]. rewrite H. now destruct r. }
  destruct (lines_split (tl lines))
    as [[rows Hr]|(pre & bad & post & rows & e & Hl & Hp & Hb)].
  - assert (Hall : forallb (fun l => is_ok (parse_line l)) (tl lines) = true).
    { clear - Hr. revert rows Hr.
      induction (tl lines) as [|l ls IH]; intros rows Hr; [reflexivity|].
      destruct rows as [|r rows]; [discriminate|].
      cbn [map] in Hr. injection Hr as Hl Hls.
      cbn [forallb]. rewrite Hl. cbn [is_ok andb]. eauto. }
    assert (Hrun : build_data_dict (init lines)
                   = (with_columns (init lines)
                        (Spec.extend (data_dict (init lines)) rows), Ok tt)).
    { rewrite build_data_dict_unfold. cbn [init raw_data].
      exact (for_each_all_ok _ _ (init lines) Hr). }
    rewrite (Hbuild _ _ Hrun).
    set (s1 := with_columns (init lines) (Spec.extend (data_dict (init lines)) rows)).
    destruct (highest_polling_candidate_result s1)
      as [(out & Hq & Hh & _)|(Hq & Hempty)].
    + left.
      unfold Prog.bind, Prog.call, Prog.print. cbn [Prog.obj Prog.stdout].
      rewrite Hq. cbn [Prog.obj Prog.stdout].
      rewrite likely_voter_polling_average_run.
      cbn [Prog.obj Prog.stdout].
      rewrite polling_history_change_run. cbn [Prog.obj Prog.stdout app].
      eexists. split; [reflexivity|].
      split; [reflexivity|]. split; [reflexivity|]. split; [reflexivity|].
      split; [|exact Hall].
      intros E. rewrite E in Hr. destruct rows; [|discriminate].
      apply Hh. reflexivity.
    + right. exists (ValueError EmptyMax). split.
      { unfold Prog.bind, Prog.call. cbn [Prog.obj Prog.stdout].
        rewrite Hq. reflexivity. }
      left.
      assert (Hrows : rows = []).
      { subst s1. cbn [with_columns data_dict init Spec.extend empty_columns
                       Harris_result Trump_result app] in Hempty.
        destruct rows; [reflexivity|]. destruct Hempty; discriminate. }
      subst rows. destruct (tl lines); [reflexivity|discriminate].
  - assert (Hrun : build_data_dict (init lines)
                   = (with_columns (init lines)
                        (Spec.extend (data_dict (init lines)) rows), Raise e)).
    { rewrite build_data_dict_unfold. cbn [init raw_data]. rewrite Hl.
      exact (for_each_first_bad pre bad post rows e (init lines) Hp Hb). }
    rewrite (Hbuild _ _ Hrun).
    right. exists e. split; [reflexivity|]. right.
    rewrite Hl, forallb_app. cbn [forallb]. rewrite Hb. cbn [is_ok andb].
    apply andb_false_r.
Qed.

(** X13.  [main] prints all or nothing: either it returns after
    printing exactly seven lines, the second and the fifth being the two
    headings, or it raises without having printed anything. *)
Theorem main_prints_all_or_nothing sum lines :
  (snd (main sum lines) = Ok tt /\
   List.length (fst (main sum lines)) = 7%nat /\
   nth 1 (fst (main sum lines)) EmptyString
     = "Likely Voter Polling Average:"%string /\
   nth 4 (fst (main sum lines)) EmptyString
     = "Polling History Change:"%string) \/
  (exists e, snd (main sum lines) = Raise e /\ fst (main sum lines) = []).
Proof.
  destruct (main_cases sum lines)
    as [(out & -> & H7 & H1 & H4 & _)|(e & -> & _)].
  - left. cbn [fst snd]. auto.
  - right. exists e. auto.
Qed.

(** X14.  [main] returns normally exactly when the file has at least
    one data line and all its data lines parse; in particular a file with
    a header alone makes it raise. *)
Theorem main_succeeds_iff sum lines :
  snd (main sum lines) = Ok tt <->
  (tl lines <> [] /\
   forallb (fun l => is_ok (parse_line l)) (tl lines) = true).
Proof.
  destruct (main_cases sum lines)
    as [(out & -> & _ & _ & _ & Hne & Hall)|(e & -> & Hbad)]; cbn [snd].
  - split; auto.
  - split; [discriminate|]. intros [Hne Hall].
    destruct Hbad as [H|H]; [contradiction|]. rewrite H in Hall. discriminate.
Qed.

(** ** [__init__]: the lines it keeps *)

Lemma readlines_line_feed t : forall u,
  PyIO.readlines (t ++ nl ++ u)%string
  = PyIO.readlines (t ++ nl)%string ++ PyIO.readlines u.
Proof.
  induction t as [|c t IH]; intros u.
  - reflexivity.
  - cbn [String.append PyIO.readlines]. destruct (Ascii.eqb c "010").
    + now rewrite IH.
    + rewrite IH. destruct (PyIO.readlines (t ++ nl)%string) eqn:E.
      * exfalso. clear - E. destruct t as [|c' t]; [discriminate|].
        cbn [String.append PyIO.readlines] in E.
        destruct (Ascii.eqb c' "010"); [discriminate|].
        destruct (PyIO.readlines (t ++ nl)%string); discriminate.
      * reflexivity.
Qed.

Lemma readlines_nonempty t : PyIO.readlines (t ++ nl)%string <> [].
Proof.
  destruct t as [|c t]; [discriminate|].
  cbn [String.append PyIO.readlines].
  destruct (Ascii.eqb c "010"); [discriminate|].
  destruct (PyIO.readlines (t ++ nl)%string); discriminate.
Qed.

Lemma for_each_raises_on_bad_line lines l e0 s :
  In l lines -> parse_line l = Raise e0 ->
  exists e, snd (Exec.for_each loop_body lines s) = Raise e.
Proof.
  intros Hin Hl.
  destruct (lines_split lines)
    as [[rows Hr]|(pre & bad & post & rows & e & Hs & Hp & Hb)].
  - exfalso. clear - Hin Hl Hr. revert rows Hr.
    induction lines as [|x xs IH]; intros rows Hr; [contradiction|].
    destruct rows as [|r rows]; [discriminate|].
    cbn [map] in Hr. injection Hr as Hx Hxs.
    destruct Hin as [->|Hin]; [congruence|]. eauto.
  - exists e. now rewrite Hs, (for_each_first_bad _ _ _ _ _ _ Hp Hb).
Qed.

(** Newline translation keeps two line feeds at the end of a text. *)
Lemma translate_newlines_two_line_feeds n : forall t,
  (String.length t <= n)%nat ->
  exists u, translate_newlines (t ++ nl ++ nl)%string = (u ++ nl ++ nl)%string.
Proof.
  induction n as [|n IH]; intros t Hn.
  - destruct t; [|cbn in Hn; lia]. now exists EmptyString.
  - destruct t as [|c r]; [now exists EmptyString|].
    cbn [String.length] in Hn.
    cbn [String.append translate_newlines].
    destruct (Ascii.eqb c "013").
    + destruct r as [|c' r'].
      * now exists EmptyString.
      * cbn [String.append]. destruct (Ascii.eqb c' "010").
        -- cbn [String.length] in Hn.
           destruct (IH r' ltac:(lia)) as [u Hu].
           exists (String "010" u). cbn [String.append]. now rewrite <- Hu.
        -- destruct (IH (String c' r') ltac:(lia)) as [u Hu].
           exists (String "010" u). cbn [String.append] in *. now rewrite <- Hu.
    + destruct (IH r ltac:(lia)) as [u Hu].
      exists (String c u). cbn [String.append]. now rewrite <- Hu.
Qed.

(** Carriage returns are gone from the lines that are kept. *)
Example init_from_text_example :
  raw_data (init_from_text (String "a" (String "013" (String "010"
              (String "b" (String "013" (String "c" (String "010" EmptyString))))))))
  = [String "a" nl; String "b" nl; String "c" nl].
Proof. reflexivity. Qed.

(** X15.  A file whose text ends with an empty line cannot be loaded:
    [build_data_dict] raises on it. *)
Theorem trailing_blank_line_fails text :
  exists e,
    snd (build_data_dict (init_from_text (text ++ nl ++ nl)%string)) = Raise e.
Proof.
  rewrite build_data_dict_unfold. unfold init_from_text. cbn [init raw_data].
  destruct (translate_newlines_two_line_feeds _ text (Nat.le_refl _)) as [u ->].
  rewrite readlines_line_feed.
  change (PyIO.readlines nl) with [nl].
  pose proof (readlines_nonempty u) as Hne.
  destruct (PyIO.readlines (u ++ nl)%string) as [|h ls]; [contradiction|].
  cbn [app tl].
  apply (for_each_raises_on_bad_line _ nl IndexError).
  - apply in_or_app. right. now left.
  - reflexivity.
Qed.

(** [readlines] cuts a text into pieces that put together give the
    text back, and none of them is empty. *)
Lemma readlines_join t :
  fold_right String.append EmptyString (PyIO.readlines t) = t /\
  forall l, In l (PyIO.readlines t) -> l <> EmptyString.
Proof.
  induction t as [|c t [IHc IHn]].
  - split; [reflexivity|]. intros l [].
  - cbn [PyIO.readlines]. destruct (Ascii.eqb c "010").
    + split.
      * cbn [fold_right String.append]. now rewrite IHc.
      * intros l [<-|H]; [discriminate|auto].
    + destruct (PyIO.readlines t) as [|l ls] eqn:E.
      * split.
        -- cbn in *. now rewrite <- IHc.
        -- intros l [<-|[]]. discriminate.
      * split.
        -- cbn [fold_right String.append] in *. now rewrite IHc.
        -- intros x [<-|H]; [discriminate|]. apply IHn. now right.
Qed.

Lemma translate_newlines_no_carriage_return n : forall t,
  (String.length t <= n)%nat ->
  no_carriage_return (translate_newlines t) = true.
Proof.
  unfold no_carriage_return.
  induction n as [|n IH]; intros t Hn.
  - destruct t; [reflexivity|cbn in Hn; lia].
  - destruct t as [|c r]; [reflexivity|].
    cbn [String.length] in Hn. cbn [translate_newlines].
    destruct (Ascii.eqb c "013") eqn:Ec.
    + destruct r as [|c' r']; [reflexivity|].
      cbn [String.length] in Hn.
      destruct (Ascii.eqb c' "010");
        cbn [list_ascii_of_string forallb]; rewrite IH by (cbn; lia);
        reflexivity.
    + cbn [list_ascii_of_string forallb]. rewrite Ec, IH by lia. reflexivity.
Qed.

Lemma no_carriage_return_app a b :
  no_carriage_return (a ++ b)%string
  = no_carriage_return a && no_carriage_return b.
Proof.
  unfold no_carriage_return. induction a as [|c a IH]; [reflexivity|].
  cbn [String.append list_ascii_of_string forallb]. now rewrite IH, andb_assoc.
Qed.

Lemma no_carriage_return_pieces lines l :
  no_carriage_return (fold_right String.append EmptyString lines) = true ->
  In l lines -> no_carriage_return l = true.
Proof.
  induction lines as [|x xs IH]; intros H Hin; [contradiction|].
  cbn [fold_right] in H. rewrite no_carriage_return_app in H.
  apply andb_prop in H as [Hx Hxs].
  destruct Hin as [<-|Hin]; auto.
Qed.

(** X16.  The lines the constructor keeps in [raw_data], put together
    again, are the text of the file with its line ends translated (a
    carriage return with its line feed, or alone, has become one line
    feed); none of them is empty (a blank line is kept as its line feed)
    and none contains a carriage return. *)
Theorem readlines_keep_the_text text :
  fold_right String.append EmptyString (raw_data (init_from_text text))
    = translate_newlines text /\
  forall l, In l (raw_data (init_from_text text)) ->
            l <> EmptyString /\ no_carriage_return l = true.
Proof.
  unfold init_from_text. cbn [init raw_data].
  destruct (readlines_join (translate_newlines text)) as [Hjoin Hne].
  split; [exact Hjoin|]. intros l Hl. split; [now apply Hne|].
  apply (no_carriage_return_pieces (PyIO.readlines (translate_newlines text))).
  - rewrite Hjoin.
    apply (translate_newlines_no_carriage_return _ text (Nat.le_refl _)).
  - exact Hl.
Qed.

(** ** A failed parse leaves a table that answers *)

(** X17.  When [build_data_dict] fails after at least one good data
    line, the table it leaves is not empty and
    [highest_polling_candidate] answers on it as on any table. *)
Theorem partial_table_answers_queries raw pre bad post rows e :
  tl raw = pre ++ bad :: post ->
  pre <> [] ->
  map parse_line pre = map Ok rows ->
  parse_line bad = Raise e ->
  snd (build_data_dict (init raw)) = Raise e /\
  exists out,
    snd (highest_polling_candidate (fst (build_data_dict (init raw)))) = Ok out.
Proof.
  intros Hraw Hne Hpre Hbad.
  assert (Hrun : build_data_dict (init raw)
                 = (with_columns (init raw)
                      (Spec.extend (data_dict (init raw)) rows), Raise e)).
  { rewrite build_data_dict_unfold. cbn [init raw_data]. rewrite Hraw.
    exact (for_each_first_bad pre bad post rows e (init raw) Hpre Hbad). }
  rewrite Hrun. cbn [fst snd]. split; [reflexivity|].
  destruct (highest_polling_candidate_result
              (with_columns (init raw) (Spec.extend (data_dict (init raw)) rows)))
    as [(out & -> & _)|(_ & Hempty)]; [cbn [snd]; eauto|].
  exfalso.
  cbn [with_columns data_dict init Spec.extend empty_columns
       Harris_result Trump_result app] in Hempty.
  destruct rows as [|r rows].
  - destruct pre; [now apply Hne|discriminate].
  - destruct Hempty; discriminate.
Qed.

Lemma partial_table_answers_queries_witness :
  snd (build_data_dict (init file_with_bad_second_line))
    = Raise (ValueError (InvalidIntLiteral "xx")) /\
  exists out,
    snd (highest_polling_candidate
           (fst (build_data_dict (init file_with_bad_second_line)))) = Ok out.
Proof.
  assert (Hpre : map parse_line ["October,15,1500 LV,0.50,0.53" ++ nl]%string
                 = map Ok [ {| row_month := "October"; row_date := 15;
                               row_sample := 1500; row_sample_type := "LV";
                               row_harris := S754_finite false 4503599627370496 (-53);
                               row_trump := S754_finite false 4773815605012726 (-53) |} ])
    by (vm_compute; reflexivity).
  assert (Hbad : parse_line ("October,xx,1200 RV,0.57,0.48" ++ nl)%string
                 = Raise (ValueError (InvalidIntLiteral "xx")))
    by (vm_compute; reflexivity).
  assert (Hne : ["October,15,1500 LV,0.50,0.53" ++ nl]%string <> [])
    by discriminate.
  exact (partial_table_answers_queries file_with_bad_second_line
           ["October,15,1500 LV,0.50,0.53" ++ nl]%string
           ("October,xx,1200 RV,0.57,0.48" ++ nl)%string [] _ _
           eq_refl Hne Hpre Hbad).
Defined.
